(** * The Nethunter installer: a shallow embedding of its orchestration

    The installer is one sequential Go program: [main] talks to the
    operator's console, to the [adb] and [fastboot] clients, to the download
    library and to the file system, and leaves the process through [exit].
    Every such interaction is an [Event]; the program is a finite tree of
    events ([Prog]) whose branches are the answers of the outside world.
    Running a program against a world gives the list of interactions that
    took place (the log) and how the process ended. *)

From Stdlib Require Import String Ascii List ZArith Bool Lia.
Import ListNotations.
Local Open Scope string_scope.

Set Implicit Arguments.

(** ** Go values *)

(** A non-nil Go [error].  [os.IsNotExist] separates the errors that report a
    missing file from all the others; [Error] is the method [Error()]. *)
Inductive GoError : Type :=
| ErrNotExist (msg : string)
| ErrOther (msg : string).

(** An [error] variable: [None] is [nil]. *)
Definition error : Type := option GoError.

Definition Error (e : GoError) : string :=
  match e with
  | ErrNotExist msg => msg
  | ErrOther msg => msg
  end.

Definition os_IsNotExist (err : error) : bool :=
  match err with
  | Some (ErrNotExist _) => true
  | _ => false
  end.

(** A pointer result that is [nil] exactly when the error is not. *)
Inductive result (A : Type) : Type :=
| Ok (a : A)
| Err (e : GoError).
Arguments Err {A} e.

(** Modelled from the spec: the status type of package [android], which is
    not among the sources.  [NoDeviceFound], [DeviceUnauthorized] and
    [NoUsbPerms] are the three values [main] compares against; the spec's
    DeviceMode names them NoDevice, AdbUnauthorized and UsbPermissionDenied
    and adds Unknown, AdbReady and FastbootReady.  Both clients' [Status]
    return this one type. *)
Inductive DeviceMode : Type :=
| Unknown
| NoDeviceFound
| DeviceUnauthorized
| AdbReady
| FastbootReady
| NoUsbPerms.

Definition DeviceMode_eqb (a b : DeviceMode) : bool :=
  match a, b with
  | Unknown, Unknown
  | NoDeviceFound, NoDeviceFound
  | DeviceUnauthorized, DeviceUnauthorized
  | AdbReady, AdbReady
  | FastbootReady, FastbootReady
  | NoUsbPerms, NoUsbPerms => true
  | _, _ => false
  end.

(** [net.DownloadRequest] as far as the installer touches it: the file name
    the download is stored under, the request headers, and the progress
    handler.  The handler [main] installs is a closure that redraws the
    shared [progressBar]; the only state it captures is the bar's [Title],
    set on the line before, so the handler is kept as that title. *)
Record DownloadRequest : Type := {
  Filename : string;
  Header : list (string * string);
  ProgressHandler : option string
}.

Definition Header_Add (k v : string) (req : DownloadRequest) : DownloadRequest :=
  {| Filename := Filename req;
     Header := Header req ++ [(k, v)];
     ProgressHandler := ProgressHandler req |}.

Definition set_ProgressHandler (title : string) (req : DownloadRequest)
  : DownloadRequest :=
  {| Filename := Filename req;
     Header := Header req;
     ProgressHandler := Some title |}.

(** ** Exit codes (part_000, lines 32-51)

    [iota] counts the constant specifications of a block from 0, and [<<]
    binds tighter than [+]. *)
Definition SuccessBase : Z := Z.shiftl 1 5 + 0.
Definition SuccessUserAbort : Z := Z.shiftl 1 5 + 1.
Definition SuccessBootloaderUnlocked : Z := Z.shiftl 1 5 + 2.
Definition Success : Z := 0.

Definition ErrorBase : Z := Z.shiftl 1 6 + 0.
Definition ErrorPrereqs : Z := Z.shiftl 1 6 + 1.
Definition ErrorUserInput : Z := Z.shiftl 1 6 + 2.
Definition ErrorUsbPerms : Z := Z.shiftl 1 6 + 3.
Definition ErrorAdb : Z := Z.shiftl 1 6 + 4.
Definition ErrorFastboot : Z := Z.shiftl 1 6 + 5.
Definition ErrorRemote : Z := Z.shiftl 1 6 + 6.
Definition ErrorTWRP : Z := Z.shiftl 1 6 + 7.

(** ** Interactions with the outside world *)

(** What [flag.Parse] makes of the command line.  [main] parses with the
    package's default flag set, whose error handling is [ExitOnError]: on a
    command line it rejects the package prints the usage and calls
    [os.Exit(2)] itself, and [os.Exit(0)] when the help flag was given;
    otherwise [*versionFlag] is what was parsed. *)
Inductive Flags : Type :=
| Accepted (versionFlag : bool)
| HelpRequested
| Rejected.

(** One constructor per call that leaves the program; the index is the Go
    return type.  Durations are in milliseconds.  [flag_Parse] is
    [flag.Parse] together with the read of [*versionFlag];
    [reader_ReadLine] leaves out the [isPrefix] result, which [main] drops;
    [android.NewAdbClient] and [android.NewFastbootClient] only build the
    client values and are no interaction. *)
Inductive Event : Type -> Type :=
| flag_Parse : Event Flags
| fmt_Printf (format : string) (a : list string) : Event unit
| fmt_Print (s : string) : Event unit
| reader_ReadLine : Event (string * error)
| os_Executable : Event (string * error)
| os_Getenv (key : string) : Event string
| os_Setenv (key value : string) : Event error
| os_Chdir (dir : string) : Event error
| os_Stat (name : string) : Event error
| time_Sleep (ms : Z) : Event unit
| adb_Status : Event (DeviceMode * error)
| adb_Reboot (target : string) : Event error
| adb_Sideload (file : string) : Event error
| adb_PushFg (local remote : string) : Event error
| adb_Shell (cmd : string) : Event error
| fastboot_Status : Event (DeviceMode * error)
| fastboot_GetProduct : Event (string * error)
| fastboot_Unlocked : Event (bool * error)
| fastboot_Unlock : Event error
| fastboot_Reboot : Event error
| fastboot_Boot (image : string) : Event error
| remote_RequestNethunter : Event (result DownloadRequest)
| remote_RequestOxygenRecovery : Event (result DownloadRequest)
| remote_RequestFactory : Event (result DownloadRequest)
| net_NewDownloadRequest (url : string) : Event (result DownloadRequest)
| req_Download (req : DownloadRequest) : Event (string * error).

(** A program: it returns, asks the world something and goes on with the
    answer, or ends the process ([os.Exit], [panic]). *)
Inductive Prog (R : Type) : Type :=
| Ret (r : R)
| Vis (T : Type) (e : Event T) (k : T -> Prog R)
| OsExit (code : Z)
| Panic (e : GoError).
Arguments Ret {R} r.
Arguments Vis {R T} e k.
Arguments OsExit {R} code.
Arguments Panic {R} e.

Fixpoint bind {A B : Type} (p : Prog A) (k : A -> Prog B) : Prog B :=
  match p with
  | Ret a => k a
  | Vis e h => Vis e (fun r => bind (h r) k)
  | OsExit c => OsExit c
  | Panic e => Panic e
  end.

Definition call {T : Type} (e : Event T) : Prog T := Vis e Ret.

Declare Scope prog_scope.
Delimit Scope prog_scope with prog.
Notation "x <- p ;; q" := (bind p (fun x => q))
  (at level 61, p at next level, right associativity) : prog_scope.
Notation "' pat <- p ;; q" := (bind p (fun x => match x with pat => q end))
  (at level 61, pat pattern, p at next level, right associativity) : prog_scope.
Notation "p ;; q" := (bind p (fun _ => q))
  (at level 61, right associativity) : prog_scope.
Local Open Scope prog_scope.

(** What a run leaves behind: each interaction with the answer it got. *)
Inductive Entry : Type :=
| entry (T : Type) (e : Event T) (r : T).

Inductive Outcome (R : Type) : Type :=
| Returned (r : R)
| Exited (code : Z)
| Panicked (e : GoError).
Arguments Exited {R} code.
Arguments Panicked {R} e.

Record Run (W R : Type) : Type := {
  log : list Entry;
  outcome : Outcome R;
  final : W
}.

Section Semantics.

(** The outside world: a state and its answer to every event. *)
Variable W : Type.
Variable handler : forall T, Event T -> W -> T * W.

Fixpoint run {R : Type} (p : Prog R) (w : W) : Run W R :=
  match p with
  | Ret r => {| log := []; outcome := Returned r; final := w |}
  | OsExit c => {| log := []; outcome := Exited c; final := w |}
  | Panic e => {| log := []; outcome := Panicked e; final := w |}
  | Vis e k =>
      let (r, w') := handler e w in
      let rest := run (k r) w' in
      {| log := entry e r :: log rest;
         outcome := outcome rest;
         final := final rest |}
  end.

End Semantics.

(** A property of every path through a program, whatever the world answers. *)
Fixpoint wp {R : Type} (p : Prog R) (Q : list Entry -> Outcome R -> Prop) : Prop :=
  match p with
  | Ret r => Q [] (Returned r)
  | OsExit c => Q [] (Exited c)
  | Panic e => Q [] (Panicked e)
  | Vis e k => forall r, wp (k r) (fun l o => Q (entry e r :: l) o)
  end.

(** ** The program *)

Definition nl : string := String (ascii_of_nat 10) EmptyString.

(** What the build fixes and the sources do not show: the platform
    ([runtime.GOOS], [runtime.GOARCH]), the version, the message constants,
    and the library function [path.Dir]. *)
Record Build : Type := {
  GOOS : string;
  GOARCH : string;
  Version : string;
  MsgWelcome : string;
  MsgIncompleteZip : string;
  MsgAdbIssue : string;
  MsgFixPerms : string;
  MsgFastbootNoDeviceFound : string;
  MsgUnlockSuccess : string;
  MsgSuccess : string;
  path_Dir : string -> string
}.

(** remote/twrp.go, lines 23-31. *)
Definition TWRPEndpoint : string := "https://dl.twrp.me".
Definition TWRPVersionPrefix : string := "twrp-3.1.1-1-".
Definition TWRPExtension : string := ".img".

Definition genTWRPDeviceUrl (device : string) : string :=
  TWRPEndpoint ++ "/" ++ device ++ "/" ++ TWRPVersionPrefix ++ device ++ TWRPExtension.

(** remote/twrp.go, lines 33-45. *)
Definition RequestTWRP (device : string) : Prog (result DownloadRequest) :=
  let url := genTWRPDeviceUrl device in
  r <- call (net_NewDownloadRequest url) ;;
  match r with
  | Err err => Ret (Err err)
  | Ok req => Ret (Ok (Header_Add "Referer" url req))
  end.

Section Installer.

Variable B : Build.

(** part_000, lines 58-64. *)
Definition iEcho (format : string) (a : list string) : Prog unit :=
  call (fmt_Printf (format ++ nl) a).

Definition eEcho (msg : string) : Prog unit := iEcho msg [].

(** part_000, lines 104-115.  [os.Exit] does not return. *)
Definition exit {R : Type} (code : Z) : Prog R :=
  if String.eqb (GOOS B) "windows"
  then call (fmt_Print (nl ++ "Press [Enter] to exit...")) ;;
       call reader_ReadLine ;;
       OsExit code
  else OsExit code.

(** part_000, lines 66-79. *)
Definition verifyAdbStatusOrAbort : Prog unit :=
  '(status, err) <- call adb_Status ;;
  match err with
  | Some e => eEcho ("Failed to get adb status: " ++ Error e) ;; exit ErrorAdb
  | None =>
      if DeviceMode_eqb status NoDeviceFound || DeviceMode_eqb status DeviceUnauthorized
      then eEcho (MsgAdbIssue B) ;; exit ErrorAdb
      else if DeviceMode_eqb status NoUsbPerms
      then eEcho (MsgFixPerms B) ;; exit ErrorUsbPerms
      else Ret tt
  end.

(** part_000, lines 81-94. *)
Definition verifyFastbootStatusOrAbort : Prog unit :=
  '(status, err) <- call fastboot_Status ;;
  match err with
  | Some e => eEcho ("Failed to get fastboot status: " ++ Error e) ;; exit ErrorFastboot
  | None =>
      if DeviceMode_eqb status NoDeviceFound
      then eEcho (MsgFastbootNoDeviceFound B) ;; exit ErrorFastboot
      else if DeviceMode_eqb status NoUsbPerms
      then eEcho (MsgFixPerms B) ;; exit ErrorUsbPerms
      else Ret tt
  end.

(** [main] is one function; it is cut here at the comments and messages
    that open its steps, and each piece carries the name of the phase it
    implements. *)

(** lines 131-136.  Where the flag package ends the process, [exit] is not
    involved: no pause, and the status is the package's. *)
Definition versionOrContinue : Prog unit :=
  parsed <- call flag_Parse ;;
  match parsed with
  | Rejected => OsExit 2
  | HelpRequested => OsExit 0
  | Accepted versionFlag =>
      if versionFlag
      then iEcho "Nethunter installer version %s %s/%s" [Version B; GOOS B; GOARCH B] ;;
           exit Success
      else Ret tt
  end.

(** lines 138-154 *)
Definition enterInstallerDir : Prog unit :=
  '(myPath, err) <- call os_Executable ;;
  match err with
  | Some e => Panic e
  | None =>
      old <- call (os_Getenv "PATH") ;;
      err <- call (os_Setenv "PATH" (path_Dir B myPath ++ ":" ++ old)) ;;
      match err with
      | Some e =>
          eEcho ("Failed to set PATH to include installer tools: " ++ Error e) ;;
          exit ErrorPrereqs
      | None =>
          err <- call (os_Chdir (path_Dir B myPath)) ;;
          match err with
          | Some _ => eEcho "Warning: failed to change working directory"
          | None => Ret tt
          end
      end
  end.

(** lines 156-169 *)
Definition awaitUserConsent : Prog unit :=
  iEcho (MsgWelcome B) [] ;;
  call (fmt_Print "Are you ready to install Nethunter? (yes/no): ") ;;
  '(responseBytes, err) <- call reader_ReadLine ;;
  match err with
  | Some e => iEcho "Failed to read input: " [Error e] ;; exit ErrorUserInput
  | None =>
      if negb (String.eqb "yes" responseBytes)
      then iEcho "" [] ;; iEcho "Aborting installation." [] ;; exit SuccessUserAbort
      else Ret tt
  end.

(** lines 171-185 *)
Definition verifyToolchain : Prog unit :=
  iEcho "" [] ;;
  iEcho "Verifying installer tools..." [] ;;
  '(_, err) <- call adb_Status ;;
  match err with
  | Some e =>
      eEcho ("Failed to run adb: " ++ Error e) ;;
      eEcho (MsgIncompleteZip B) ;;
      exit ErrorPrereqs
  | None =>
      '(_, err) <- call fastboot_Status ;;
      match err with
      | Some e =>
          eEcho ("Failed to run fastboot: " ++ Error e) ;;
          eEcho (MsgIncompleteZip B) ;;
          exit ErrorPrereqs
      | None => Ret tt
      end
  end.

(** lines 194-206: the rest of the branch taken in ADB mode *)
Definition rebootToBootloader : Prog unit :=
  iEcho "Rebooting your device into bootloader..." [] ;;
  err <- call (adb_Reboot "bootloader") ;;
  match err with
  | Some e => eEcho ("Failed to reboot into bootloader: " ++ Error e) ;; exit ErrorAdb
  | None =>
      call (time_Sleep 7000) ;;
      '(status, err) <- call fastboot_Status ;;
      if (match err with Some _ => true | None => false end)
         || DeviceMode_eqb status NoDeviceFound
      then eEcho "Failed to reboot device into bootloader!" ;; exit ErrorAdb
      else Ret tt
  end.

(** lines 187-207; the error of this first probe is dropped
    ([status, _ :=]) *)
Definition detectDeviceMode : Prog unit :=
  iEcho "Checking USB permissions..." [] ;;
  '(status, _) <- call fastboot_Status ;;
  if DeviceMode_eqb status NoDeviceFound
  then verifyAdbStatusOrAbort ;; rebootToBootloader
  else Ret tt.

(** lines 213-225.  Inside the [if], [product := "cheeseburger"] declares a
    new variable whose scope is that block; the [product] of line 214 is
    what the rest of [main] reads. *)
Definition identifyDevice : Prog string :=
  iEcho "Identifying your device..." [] ;;
  '(product, err) <- call fastboot_GetProduct ;;
  match err with
  | Some e => eEcho ("Failed to get device product info: " ++ Error e) ;; exit ErrorFastboot
  | None =>
      (if String.eqb "QC_Reference_Phone" product
       then let product := "cheeseburger" in Ret tt
       else Ret tt) ;;
      Ret product
  end.

(** lines 227-241 *)
Definition ensureBootloaderUnlocked : Prog unit :=
  '(unlocked, err) <- call fastboot_Unlocked ;;
  match err with
  | Some e => iEcho ("Warning: unable to determine bootloader lock state: " ++ Error e) []
  | None => Ret tt
  end ;;
  if negb unlocked
  then
    iEcho "Unlocking bootloader, you will need to confirm this on your device..." [] ;;
    err <- call fastboot_Unlock ;;
    match err with
    | Some e => eEcho ("Failed to unlock bootloader: " ++ Error e) ;; exit ErrorFastboot
    | None =>
        call fastboot_Reboot ;;
        iEcho (MsgUnlockSuccess B) [] ;;
        exit SuccessBootloaderUnlocked
    end
  else Ret tt.

(** lines 244-267: the update package *)
Definition fetchNethunter (product : string) : Prog string :=
  iEcho "Downloading the latest release for your device (%q)..." [product] ;;
  r <- call remote_RequestNethunter ;;
  match r with
  | Err e => eEcho ("Failed to download Nethunter: " ++ Error e) ;; exit ErrorRemote
  | Ok req =>
      let zip := Filename req in
      err <- call (os_Stat zip) ;;
      if os_IsNotExist err
      then
        let req := set_ProgressHandler zip req in
        '(zip, err) <- call (req_Download req) ;;
        match err with
        | Some e =>
            eEcho "" ;;
            eEcho ("Failed to download Nethunter: " ++ Error e) ;;
            exit ErrorRemote
        | None => Ret zip
        end
      else Ret zip
  end.

(** lines 269-292: the TWRP image *)
Definition fetchTWRP (product : string) : Prog string :=
  iEcho "Downloading TWRP for your device..." [] ;;
  r <- RequestTWRP product ;;
  match r with
  | Err e => eEcho ("Failed to request TWRP: " ++ Error e) ;; exit ErrorRemote
  | Ok req =>
      let twrp := Filename req in
      err <- call (os_Stat twrp) ;;
      if os_IsNotExist err
      then
        let req := set_ProgressHandler twrp req in
        '(twrp, err) <- call (req_Download req) ;;
        match err with
        | Some e =>
            eEcho "" ;;
            eEcho ("Failed to download TWRP: " ++ Error e) ;;
            exit ErrorRemote
        | None => Ret twrp
        end
      else Ret twrp
  end.

(** lines 294-317: the OxygenOS recovery image; line 302 stats [twrp] *)
Definition fetchOxygenRecovery (twrp : string) : Prog string :=
  iEcho "Downloading OnePlus5 OxygenOS recovery for your device..." [] ;;
  r <- call remote_RequestOxygenRecovery ;;
  match r with
  | Err e => eEcho ("Failed to request TWRP: " ++ Error e) ;; exit ErrorRemote
  | Ok req =>
      let oxygenrecovery := Filename req in
      err <- call (os_Stat twrp) ;;
      if os_IsNotExist err
      then
        let req := set_ProgressHandler oxygenrecovery req in
        '(oxygenrecovery, err) <- call (req_Download req) ;;
        match err with
        | Some e =>
            eEcho "" ;;
            eEcho ("Failed to download Oxygen Recovery: " ++ Error e) ;;
            exit ErrorRemote
        | None => Ret oxygenrecovery
        end
      else Ret oxygenrecovery
  end.

(** lines 319-343: the factory image *)
Definition fetchFactory : Prog string :=
  iEcho "Downloading OnePlus 5 factory for your device..." [] ;;
  r <- call remote_RequestFactory ;;
  match r with
  | Err e =>
      eEcho ("Failed to request OnePlus 5 Factory image: " ++ Error e) ;;
      exit ErrorRemote
  | Ok req =>
      let factory := Filename req in
      err <- call (os_Stat factory) ;;
      if os_IsNotExist err
      then
        let req := set_ProgressHandler factory req in
        '(factory, err) <- call (req_Download req) ;;
        match err with
        | Some e =>
            eEcho "" ;;
            eEcho ("Failed to download factory image: " ++ Error e) ;;
            exit ErrorRemote
        | None => Ret factory
        end
      else Ret factory
  end.

(** The four local paths [main] keeps after line 343. *)
Record Artifacts : Type := {
  zip : string;
  twrp : string;
  oxygenrecovery : string;
  factory : string
}.

(** lines 244-343 *)
Definition fetchArtifacts (product : string) : Prog Artifacts :=
  zip <- fetchNethunter product ;;
  twrp <- fetchTWRP product ;;
  oxygenrecovery <- fetchOxygenRecovery twrp ;;
  factory <- fetchFactory ;;
  Ret {| zip := zip; twrp := twrp;
         oxygenrecovery := oxygenrecovery; factory := factory |}.

(** lines 345-365 *)
Definition flashFactoryViaRecoveryA (a : Artifacts) : Prog unit :=
  iEcho "Temporarily booting Oxygen recovery to flash latest OxygenOS..." [] ;;
  err <- call (fastboot_Boot (oxygenrecovery a)) ;;
  match err with
  | Some e => eEcho ("Failed to boot into Oxygen Recovery: " ++ Error e) ;; exit ErrorTWRP
  | None =>
      call (fmt_Print "On OnePlus5, choose Install from USB option in the recovery screen, tap OK to confirm. Press enter when in sideload mode") ;;
      '(_, err) <- call reader_ReadLine ;;
      match err with
      | Some e => iEcho "Failed to read input: " [Error e] ;; exit ErrorUserInput
      | None =>
          err <- call (adb_Sideload (factory a)) ;;
          match err with
          | Some e => eEcho ("Failed to flash Factory zip file: " ++ Error e) ;; exit ErrorTWRP
          | None => Ret tt
          end
      end
  end.

(** lines 367-398 *)
Definition flashUpdateViaRecoveryB (a : Artifacts) : Prog unit :=
  call (fmt_Print "Reboot back into fastboot when completed.  Press return when in fastboot mode") ;;
  '(_, err) <- call reader_ReadLine ;;
  match err with
  | Some e => iEcho "Failed to read input: " [Error e] ;; exit ErrorUserInput
  | None =>
      iEcho "Temporarily booting TWRP to flash Nethunter update zip..." [] ;;
      err <- call (fastboot_Boot (twrp a)) ;;
      match err with
      | Some e => eEcho ("Failed to boot TWRP: " ++ Error e) ;; exit ErrorTWRP
      | None =>
          call (time_Sleep 10000) ;;
          iEcho "Transferring the Nethunter update zip to your device..." [] ;;
          err <- call (adb_PushFg (zip a) "/sdcard") ;;
          match err with
          | Some e =>
              eEcho ("Failed to push Nethunter update zip to device: " ++ Error e) ;;
              exit ErrorAdb
          | None =>
              iEcho "Installing Nethunter, please keep your device connected..." [] ;;
              err <- call (adb_Shell ("twrp install /sdcard/" ++ zip a)) ;;
              match err with
              | Some e =>
                  eEcho ("Failed to flash Nethunter update zip: " ++ Error e) ;;
                  exit ErrorTWRP
              | None => call (time_Sleep 2000)
              end
          end
      end
  end.

(** lines 400-418 *)
Definition wipeCachePartitions : Prog unit :=
  iEcho "Wiping your device without wiping /data/media..." [] ;;
  err <- call (adb_Shell "twrp wipe cache") ;;
  match err with
  | Some e => eEcho ("Failed to wipe cache: " ++ Error e) ;; exit ErrorTWRP
  | None =>
      call (time_Sleep 1000) ;;
      err <- call (adb_Shell "twrp wipe dalvik") ;;
      match err with
      | Some e => eEcho ("Failed to wipe dalvik: " ++ Error e) ;; exit ErrorTWRP
      | None =>
          call (time_Sleep 1000) ;;
          err <- call (adb_Shell "twrp wipe data") ;;
          match err with
          | Some e => eEcho ("Failed to wipe data: " ++ Error e) ;; exit ErrorTWRP
          | None => call (time_Sleep 1000)
          end
      end
  end.

(** lines 420-428 *)
Definition finalReboot : Prog unit :=
  iEcho (MsgSuccess B) [] ;;
  err <- call (adb_Reboot "") ;;
  match err with
  | Some e =>
      eEcho ("Failed to reboot: " ++ Error e) ;;
      iEcho (nl ++ "Please reboot your device manually by going to Reboot > System > Do Not Install") [] ;;
      exit ErrorAdb
  | None => exit Success
  end.

(** part_000, lines 117-429. *)
Definition main : Prog unit :=
  versionOrContinue ;;
  enterInstallerDir ;;
  awaitUserConsent ;;
  verifyToolchain ;;
  detectDeviceMode ;;
  verifyFastbootStatusOrAbort ;;
  product <- identifyDevice ;;
  ensureBootloaderUnlocked ;;
  a <- fetchArtifacts product ;;
  flashFactoryViaRecoveryA a ;;
  flashUpdateViaRecoveryB a ;;
  wipeCachePartitions ;;
  finalReboot.

End Installer.

(** The part of [main] that follows the unlock check (lines 243-428), and
    the part that follows the installer directory (lines 156-428); [main]
    is convertible to its first two steps followed by [install]. *)
Definition installUnlocked (B : Build) (product : string) : Prog unit :=
  a <- fetchArtifacts B product ;;
  flashFactoryViaRecoveryA B a ;;
  flashUpdateViaRecoveryB B a ;;
  wipeCachePartitions B ;;
  finalReboot B.

Definition install (B : Build) : Prog unit :=
  awaitUserConsent B ;;
  verifyToolchain B ;;
  detectDeviceMode B ;;
  verifyFastbootStatusOrAbort B ;;
  product <- identifyDevice B ;;
  ensureBootloaderUnlocked B ;;
  installUnlocked B product.

(** The part of [main] that follows the consent (lines 171-428). *)
Definition installConsented (B : Build) : Prog unit :=
  verifyToolchain B ;;
  detectDeviceMode B ;;
  verifyFastbootStatusOrAbort B ;;
  product <- identifyDevice B ;;
  ensureBootloaderUnlocked B ;;
  installUnlocked B product.

(** ** Observations on a log *)

Definition pause_prompt : string := nl ++ "Press [Enter] to exit...".

Definition is_pause_print (x : Entry) : bool :=
  match x with
  | entry e _ =>
      match e with
      | fmt_Print s => String.eqb s pause_prompt
      | _ => false
      end
  end.

Definition is_ReadLine (x : Entry) : bool :=
  match x with
  | entry e _ => match e with reader_ReadLine => true | _ => false end
  end.

(** The last two interactions are the prompt of [exit] and the line read
    after it. *)
Definition ends_paused (l : list Entry) : bool :=
  match rev l with
  | x :: y :: _ => is_ReadLine x && is_pause_print y
  | _ => false
  end.

Definition is_adb_Reboot (x : Entry) : bool :=
  match x with
  | entry e _ => match e with adb_Reboot _ => true | _ => false end
  end.

(** A wait, a probe of either client, or a reboot request: what a retry
    would be made of. *)
Definition is_retry (x : Entry) : bool :=
  match x with
  | entry e _ =>
      match e with
      | time_Sleep _ | fastboot_Status | adb_Status | adb_Reboot _ => true
      | _ => false
      end
  end.

Definition is_lock_query (x : Entry) : bool :=
  match x with
  | entry e _ => match e with fastboot_Unlocked => true | _ => false end
  end.

(** [fastboot.Unlock()] and [fastboot.Reboot()]. *)
Definition is_unlock_call (x : Entry) : bool :=
  match x with
  | entry e _ =>
      match e with
      | fastboot_Unlock | fastboot_Reboot => true
      | _ => false
      end
  end.

(** What the fetch and flash phases ask of the network, the working
    directory and the device. *)
Definition is_fetch_or_flash (x : Entry) : bool :=
  match x with
  | entry e _ =>
      match e with
      | remote_RequestNethunter | remote_RequestOxygenRecovery
      | remote_RequestFactory | net_NewDownloadRequest _
      | os_Stat _ | req_Download _
      | fastboot_Boot _ | adb_Sideload _ | adb_PushFg _ _ | adb_Shell _ => true
      | _ => false
      end
  end.

(** Interactions that belong to the lock check or to a later phase. *)
Definition is_late (x : Entry) : bool :=
  is_lock_query x || is_unlock_call x || is_fetch_or_flash x.

(** The answer to the first lock-state query of a log, with what follows
    it in the log. *)
Fixpoint lock_query (l : list Entry) : option ((bool * error) * list Entry) :=
  match l with
  | [] => None
  | entry e r :: l' =>
      match e in Event T return T -> option ((bool * error) * list Entry) with
      | fastboot_Unlocked => fun r => Some (r, l')
      | _ => fun _ => lock_query l'
      end r
  end.

(** The URLs handed to [net.NewDownloadRequest], the files whose download
    was started, the paths given to [os.Stat] and the images booted, each in
    the order of the log. *)
Definition new_request_url (x : Entry) : list string :=
  match x with
  | entry e _ => match e with net_NewDownloadRequest url => [url] | _ => [] end
  end.

Definition download_file (x : Entry) : list string :=
  match x with
  | entry e _ => match e with req_Download req => [Filename req] | _ => [] end
  end.

Definition stat_path (x : Entry) : list string :=
  match x with
  | entry e _ => match e with os_Stat name => [name] | _ => [] end
  end.

Definition boot_image (x : Entry) : list string :=
  match x with
  | entry e _ => match e with fastboot_Boot image => [image] | _ => [] end
  end.

(** The four artifacts, by the function that requests each. *)
Inductive Artifact : Type :=
| Nethunter
| TWRP
| OxygenRecovery
| Factory.

Definition is_Ok {A : Type} (r : result A) : bool :=
  match r with
  | Ok _ => true
  | Err _ => false
  end.

Definition is_nil (err : error) : bool :=
  match err with
  | None => true
  | Some _ => false
  end.

(** What the fetch phase asks of the network, with whether it succeeded. *)
Inductive FetchCall : Type :=
| Requested (a : Artifact) (ok : bool)
| Downloaded (file : string) (ok : bool).

Definition call_ok (c : FetchCall) : bool :=
  match c with
  | Requested _ ok => ok
  | Downloaded _ ok => ok
  end.

Definition fetch_call (x : Entry) : list FetchCall :=
  match x with
  | entry e r =>
      match e in Event T return T -> list FetchCall with
      | remote_RequestNethunter => fun r => [Requested Nethunter (is_Ok r)]
      | net_NewDownloadRequest _ => fun r => [Requested TWRP (is_Ok r)]
      | remote_RequestOxygenRecovery => fun r => [Requested OxygenRecovery (is_Ok r)]
      | remote_RequestFactory => fun r => [Requested Factory (is_Ok r)]
      | req_Download req => fun r => [Downloaded (Filename req) (is_nil (snd r))]
      | _ => fun _ => []
      end r
  end.

Definition requested (c : FetchCall) : list Artifact :=
  match c with
  | Requested a _ => [a]
  | Downloaded _ _ => []
  end.

(** The last call failed and none before it did. *)
Definition last_failed (calls : list FetchCall) : bool :=
  match rev calls with
  | c :: before => negb (call_ok c) && forallb call_ok before
  | [] => false
  end.

(** The interactions of the fetch phase: console output, the pause of
    [exit], requests, [os.Stat] and downloads. *)
Definition is_fetch_event (x : Entry) : bool :=
  match x with
  | entry e _ =>
      match e with
      | fmt_Printf _ _ | fmt_Print _ | reader_ReadLine
      | remote_RequestNethunter | remote_RequestOxygenRecovery
      | remote_RequestFactory | net_NewDownloadRequest _
      | os_Stat _ | req_Download _ => true
      | _ => false
      end
  end.

Definition is_console (x : Entry) : bool :=
  match x with
  | entry e _ =>
      match e with
      | fmt_Printf _ _ | fmt_Print _ | reader_ReadLine => true
      | _ => false
      end
  end.

Definition wipe_commands : list string :=
  [ "twrp wipe cache"; "twrp wipe dalvik"; "twrp wipe data" ].

(** The wipe commands a log sends to the recovery's shell. *)
Definition wipe_command (x : Entry) : list string :=
  match x with
  | entry e _ =>
      match e with
      | adb_Shell cmd => if existsb (String.eqb cmd) wipe_commands then [cmd] else []
      | _ => []
      end
  end.

(** The codes the constant blocks document as exit codes; the two [Base]
    values only anchor the bands. *)
Definition success_band : list Z := [ SuccessUserAbort; SuccessBootloaderUnlocked ].

Definition error_band : list Z :=
  [ ErrorPrereqs; ErrorUserInput; ErrorUsbPerms; ErrorAdb;
    ErrorFastboot; ErrorRemote; ErrorTWRP ].

Definition documented_codes : list Z := Success :: (success_band ++ error_band)%list.

Definition documentedb (c : Z) : bool := existsb (Z.eqb c) documented_codes.

Definition is_Printf (x : Entry) : bool :=
  match x with
  | entry e _ => match e with fmt_Printf _ _ => true | _ => false end
  end.

(** Anything asked of the device, the network or the working directory's
    files; what is left is the console, the flags and the process's own
    environment. *)
Definition is_device_or_network (x : Entry) : bool :=
  match x with
  | entry e _ =>
      match e with
      | flag_Parse | fmt_Printf _ _ | fmt_Print _ | reader_ReadLine
      | os_Executable | os_Getenv _ | os_Setenv _ _ | os_Chdir _ => false
      | _ => true
      end
  end.

(** Commands that change what the device runs or holds. *)
Definition is_flash (x : Entry) : bool :=
  match x with
  | entry e _ =>
      match e with
      | fastboot_Boot _ | adb_Sideload _ | adb_PushFg _ _ | adb_Shell _ => true
      | _ => false
      end
  end.

(** The milliseconds an interaction sleeps, and their sum over a log. *)
Definition sleep_ms (x : Entry) : Z :=
  match x with
  | entry e _ => match e with time_Sleep ms => ms | _ => 0%Z end
  end.

Definition sleep_total (l : list Entry) : Z :=
  fold_right (fun x acc => (sleep_ms x + acc)%Z) 0%Z l.

(** The interaction right before the process exits, the pause of [exit]
    set aside, is a [Printf]. *)
Definition announced (l : list Entry) : bool :=
  match rev l with
  | x :: y :: z :: _ =>
      if is_ReadLine x && is_pause_print y then is_Printf z else is_Printf x
  | x :: _ => is_Printf x
  | [] => false
  end.

(** The final reboot was requested and accepted. *)
Definition is_final_reboot_ok (x : Entry) : bool :=
  match x with
  | entry e r =>
      match e in Event T return T -> bool with
      | adb_Reboot target => fun r => String.eqb target "" && is_nil r
      | _ => fun _ => false
      end r
  end.

(** ** A scripted world

    The answers the outside world gives, in the order they are asked for,
    and the working directory as each successive [os.Stat] finds it.  An
    answer of the wrong shape, or none left, is answered with an error. *)
Inductive Answer : Type :=
| a_flag (b : bool)
| a_help
| a_usage
| a_text (s : string) (err : error)
| a_env (s : string)
| a_err (err : error)
| a_mode (m : DeviceMode) (err : error)
| a_lock (b : bool) (err : error)
| a_req (r : result DownloadRequest).

Record World : Type := {
  answers : list Answer;
  directory : list (list string)
}.

Definition unscripted : GoError := ErrOther "unscripted".

Definition pop (w : World) : option Answer * World :=
  match answers w with
  | [] => (None, w)
  | a :: l => (Some a, {| answers := l; directory := directory w |})
  end.

Definition pop_text (w : World) : (string * error) * World :=
  match pop w with
  | (Some (a_text s err), w') => ((s, err), w')
  | _ => (("", Some unscripted), w)
  end.

Definition pop_err (w : World) : error * World :=
  match pop w with
  | (Some (a_err err), w') => (err, w')
  | _ => (Some unscripted, w)
  end.

Definition pop_mode (w : World) : (DeviceMode * error) * World :=
  match pop w with
  | (Some (a_mode m err), w') => ((m, err), w')
  | _ => ((Unknown, Some unscripted), w)
  end.

Definition pop_req (w : World) : result DownloadRequest * World :=
  match pop w with
  | (Some (a_req r), w') => (r, w')
  | _ => (Err unscripted, w)
  end.

Definition stat (name : string) (w : World) : error * World :=
  match directory w with
  | [] => (Some (ErrNotExist ("stat " ++ name ++ ": no such file or directory")), w)
  | d :: later =>
      (if existsb (String.eqb name) d
       then None
       else Some (ErrNotExist ("stat " ++ name ++ ": no such file or directory")),
       {| answers := answers w; directory := later |})
  end.

Definition scripted (T : Type) (e : Event T) (w : World) : T * World :=
  match e in Event T return T * World with
  | flag_Parse =>
      match pop w with
      | (Some (a_flag b), w') => (Accepted b, w')
      | (Some a_help, w') => (HelpRequested, w')
      | (Some a_usage, w') => (Rejected, w')
      | _ => (Accepted false, w)
      end
  | fmt_Printf _ _ => (tt, w)
  | fmt_Print _ => (tt, w)
  | time_Sleep _ => (tt, w)
  | reader_ReadLine => pop_text w
  | os_Executable => pop_text w
  | fastboot_GetProduct => pop_text w
  | req_Download _ => pop_text w
  | os_Getenv _ =>
      match pop w with
      | (Some (a_env s), w') => (s, w')
      | _ => ("", w)
      end
  | os_Stat name => stat name w
  | os_Setenv _ _ => pop_err w
  | os_Chdir _ => pop_err w
  | adb_Reboot _ => pop_err w
  | adb_Sideload _ => pop_err w
  | adb_PushFg _ _ => pop_err w
  | adb_Shell _ => pop_err w
  | fastboot_Unlock => pop_err w
  | fastboot_Reboot => pop_err w
  | fastboot_Boot _ => pop_err w
  | adb_Status => pop_mode w
  | fastboot_Status => pop_mode w
  | fastboot_Unlocked =>
      match pop w with
      | (Some (a_lock b err), w') => ((b, err), w')
      | _ => ((false, Some unscripted), w)
      end
  | remote_RequestNethunter => pop_req w
  | remote_RequestOxygenRecovery => pop_req w
  | remote_RequestFactory => pop_req w
  | net_NewDownloadRequest _ => pop_req w
  end.

(** A run that gets as far as the lock check: no version flag, the
    installer directory entered, consent given, both tools answering, the
    device already in fastboot mode, and the given product string. *)
Definition up_to_lock_check (product : string) : list Answer :=
  [ a_flag false;
    a_text "/opt/installer/nethunter-installer" None;
    a_env "/usr/bin";
    a_err None;
    a_err None;
    a_text "yes" None;
    a_mode AdbReady None;
    a_mode FastbootReady None;
    a_mode FastbootReady None;
    a_mode FastbootReady None;
    a_text product None ].

Definition request (file : string) : DownloadRequest :=
  {| Filename := file; Header := []; ProgressHandler := None |}.

(** A build for the scenarios. *)
Definition linux : Build :=
  {| GOOS := "linux"; GOARCH := "amd64"; Version := "0.1";
     MsgWelcome := "Welcome";
     MsgIncompleteZip := "Incomplete zip";
     MsgAdbIssue := "Adb issue";
     MsgFixPerms := "Fix permissions";
     MsgFastbootNoDeviceFound := "No fastboot device";
     MsgUnlockSuccess := "Unlocked";
     MsgSuccess := "Done";
     path_Dir := fun _ => "/opt/installer" |}.

Definition windows : Build :=
  {| GOOS := "windows"; GOARCH := "amd64"; Version := "0.1";
     MsgWelcome := "Welcome";
     MsgIncompleteZip := "Incomplete zip";
     MsgAdbIssue := "Adb issue";
     MsgFixPerms := "Fix permissions";
     MsgFastbootNoDeviceFound := "No fastboot device";
     MsgUnlockSuccess := "Unlocked";
     MsgSuccess := "Done";
     path_Dir := fun _ => "C:\installer" |}.

(** ** Properties of every path *)

(** A property of the log that holds however the program ends. *)
Definition always (N : list Entry -> Prop) {R : Type} (p : Prog R) : Prop :=
  wp p (fun l _ => N l).

(** The program does not panic, and where it exits, [P] holds of the log
    and the code. *)
Definition exits_with (P : list Entry -> Z -> Prop) {R : Type} (p : Prog R) : Prop :=
  wp p (fun l o =>
          match o with
          | Returned _ => True
          | Exited c => P l c
          | Panicked _ => False
          end).

(** The same, for a program that never returns. *)
Definition ends_with (P : list Entry -> Z -> Prop) {R : Type} (p : Prog R) : Prop :=
  wp p (fun l o =>
          match o with
          | Exited c => P l c
          | _ => False
          end).

Definition early (l : list Entry) : Prop := existsb is_late l = false.

(** ** Scenarios *)

(** The executable's own path cannot be found: the first call after the
    flags fails. *)
Definition no_executable : World :=
  {| answers := [ a_flag false;
                  a_text "" (Some (ErrOther "cannot determine the path of the executable")) ];
     directory := [] |}.

(** The fastboot client reports that USB permissions are missing. *)
Definition fastboot_no_perms : World :=
  {| answers := [ a_mode NoUsbPerms None ]; directory := [] |}.

(** The reboot is accepted; after the wait fastboot sees the device but
    lacks USB permissions. *)
Definition reboot_then_no_perms : World :=
  {| answers := [ a_err None; a_mode NoUsbPerms None ]; directory := [] |}.

(** The device is locked and refuses to unlock. *)
Definition unlock_refused : World :=
  {| answers := up_to_lock_check "cheeseburger"
                ++ [ a_lock false None;
                     a_err (Some (ErrOther "FAILED (remote: oem unlock is not allowed)")) ];
     directory := [] |}.

(** The lock-state query fails, and the flag that comes with the error says
    unlocked. *)
Definition lock_state_unknown : World :=
  {| answers := up_to_lock_check "cheeseburger"
                ++ [ a_lock true (Some (ErrOther "getvar:unlocked FAILED")) ];
     directory := [] |}.

(** The device is a OnePlus 5 that reports the vendor's product string; it
    is unlocked and the update package is already in the directory. *)
Definition vendor_alias : World :=
  {| answers := up_to_lock_check "QC_Reference_Phone"
                ++ [ a_lock true None;
                     a_req (Ok (request "nethunter-generic.zip"));
                     a_req (Ok (request "twrp-3.1.1-1-QC_Reference_Phone.img")) ];
     directory := [ [ "nethunter-generic.zip" ];
                    [ "nethunter-generic.zip"; "twrp-3.1.1-1-QC_Reference_Phone.img" ] ] |}.


(** The other face of line 302: the recovery image is missing, the TWRP
    image is there. *)
Definition recovery_image_missing : World :=
  {| answers := up_to_lock_check "cheeseburger"
                ++ [ a_lock true None;
                     a_req (Ok (request "nethunter-generic.zip"));
                     a_req (Ok (request "twrp-3.1.1-1-cheeseburger.img"));
                     a_req (Ok (request "recovery_op5.img"));
                     a_req (Ok (request "OnePlus5Oxygen.zip"));
                     a_err None ];
     directory := [ [ "nethunter-generic.zip"; "twrp-3.1.1-1-cheeseburger.img"; "OnePlus5Oxygen.zip" ];
                    [ "nethunter-generic.zip"; "twrp-3.1.1-1-cheeseburger.img"; "OnePlus5Oxygen.zip" ];
                    [ "nethunter-generic.zip"; "twrp-3.1.1-1-cheeseburger.img"; "OnePlus5Oxygen.zip" ];
                    [ "nethunter-generic.zip"; "twrp-3.1.1-1-cheeseburger.img"; "OnePlus5Oxygen.zip" ] ] |}.

(** A second invocation: the device is unlocked, all four files are already
    in the working directory, and every later step succeeds. *)
Definition everything_present : World :=
  {| answers := up_to_lock_check "cheeseburger"
                ++ [ a_lock true None;
                     a_req (Ok (request "nethunter-generic.zip"));
                     a_req (Ok (request "twrp-3.1.1-1-cheeseburger.img"));
                     a_req (Ok (request "recovery_op5.img"));
                     a_req (Ok (request "OnePlus5Oxygen.zip"));
                     a_err None; a_text "" None; a_err None;
                     a_text "" None; a_err None; a_err None; a_err None;
                     a_err None; a_err None; a_err None;
                     a_err None ];
     directory := [ [ "nethunter-generic.zip"; "twrp-3.1.1-1-cheeseburger.img";
                      "recovery_op5.img"; "OnePlus5Oxygen.zip" ];
                    [ "nethunter-generic.zip"; "twrp-3.1.1-1-cheeseburger.img";
                      "recovery_op5.img"; "OnePlus5Oxygen.zip" ];
                    [ "nethunter-generic.zip"; "twrp-3.1.1-1-cheeseburger.img";
                      "recovery_op5.img"; "OnePlus5Oxygen.zip" ];
                    [ "nethunter-generic.zip"; "twrp-3.1.1-1-cheeseburger.img";
                      "recovery_op5.img"; "OnePlus5Oxygen.zip" ] ] |}.

(** The operator answers the consent prompt with something other than
    "yes". *)
Definition consent_refused : World :=
  {| answers := [ a_flag false;
                  a_text "/opt/installer/nethunter-installer" None;
                  a_env "/usr/bin";
                  a_err None;
                  a_err None;
                  a_text "no" None ];
     directory := [] |}.

(** A whole installation that starts with the device in ADB mode: the
    device is rebooted into the bootloader, it is unlocked, the four files
    are in the working directory, and every later step succeeds. *)
Definition full_install : World :=
  {| answers := [ a_flag false;
                  a_text "/opt/installer/nethunter-installer" None;
                  a_env "/usr/bin";
                  a_err None;
                  a_err None;
                  a_text "yes" None;
                  a_mode AdbReady None;
                  a_mode NoDeviceFound None;
                  a_mode NoDeviceFound None;
                  a_mode AdbReady None;
                  a_err None;
                  a_mode FastbootReady None;
                  a_mode FastbootReady None;
                  a_text "cheeseburger" None;
                  a_lock true None;
                  a_req (Ok (request "nethunter-generic.zip"));
                  a_req (Ok (request "twrp-3.1.1-1-cheeseburger.img"));
                  a_req (Ok (request "recovery_op5.img"));
                  a_req (Ok (request "OnePlus5Oxygen.zip"));
                  a_err None; a_text "" None; a_err None;
                  a_text "" None; a_err None; a_err None; a_err None;
                  a_err None; a_err None; a_err None;
                  a_err None ];
     directory := [ [ "nethunter-generic.zip"; "twrp-3.1.1-1-cheeseburger.img";
                      "recovery_op5.img"; "OnePlus5Oxygen.zip" ];
                    [ "nethunter-generic.zip"; "twrp-3.1.1-1-cheeseburger.img";
                      "recovery_op5.img"; "OnePlus5Oxygen.zip" ];
                    [ "nethunter-generic.zip"; "twrp-3.1.1-1-cheeseburger.img";
                      "recovery_op5.img"; "OnePlus5Oxygen.zip" ];
                    [ "nethunter-generic.zip"; "twrp-3.1.1-1-cheeseburger.img";
                      "recovery_op5.img"; "OnePlus5Oxygen.zip" ] ] |}.

(** The lock-state query fails and the flag that comes with the error is
    the zero value; the unlock that follows is accepted. *)
Definition lock_state_unknown_locked : World :=
  {| answers := up_to_lock_check "cheeseburger"
                ++ [ a_lock false (Some (ErrOther "getvar:unlocked FAILED"));
                     a_err None;
                     a_err None ];
     directory := [] |}.

(** The same, and the unlock is refused. *)
Definition lock_state_unknown_unlock_refused : World :=
  {| answers := up_to_lock_check "cheeseburger"
                ++ [ a_lock false (Some (ErrOther "getvar:unlocked FAILED"));
                     a_err (Some (ErrOther "FAILED (remote: oem unlock is not allowed)")) ];
     directory := [] |}.

(** A command line the flag package rejects. *)
Definition rejected_command_line : World :=
  {| answers := [ a_usage ]; directory := [] |}.

(** The version is asked for and standard input is closed. *)
Definition stdin_closed : World :=
  {| answers := [ a_flag true; a_text "" (Some (ErrOther "EOF")) ];
     directory := [] |}.

(** ** Tactics *)

(** Symbolic execution: follow the program one interaction at a time and
    split on an answer only where the program looks at it.  The steps of
    [main] are unfolded one at a time, on request. *)
Arguments exit B {R} code /.
Arguments versionOrContinue : simpl never.
Arguments enterInstallerDir : simpl never.
Arguments awaitUserConsent : simpl never.
Arguments verifyToolchain : simpl never.
Arguments verifyAdbStatusOrAbort : simpl never.
Arguments verifyFastbootStatusOrAbort : simpl never.
Arguments rebootToBootloader : simpl never.
Arguments detectDeviceMode : simpl never.
Arguments identifyDevice : simpl never.
Arguments ensureBootloaderUnlocked : simpl never.
Arguments fetchNethunter : simpl never.
Arguments fetchTWRP : simpl never.
Arguments fetchOxygenRecovery : simpl never.
Arguments fetchFactory : simpl never.
Arguments fetchArtifacts : simpl never.
Arguments flashFactoryViaRecoveryA : simpl never.
Arguments flashUpdateViaRecoveryB : simpl never.
Arguments wipeCachePartitions : simpl never.
Arguments finalReboot : simpl never.
Arguments installUnlocked : simpl never.
Arguments install : simpl never.
Arguments installConsented : simpl never.
Arguments main : simpl never.

Create HintDb steps.
#[local] Hint Unfold versionOrContinue enterInstallerDir awaitUserConsent
  verifyToolchain verifyAdbStatusOrAbort verifyFastbootStatusOrAbort
  rebootToBootloader detectDeviceMode identifyDevice ensureBootloaderUnlocked
  fetchNethunter fetchTWRP fetchOxygenRecovery fetchFactory fetchArtifacts
  RequestTWRP flashFactoryViaRecoveryA flashUpdateViaRecoveryB wipeCachePartitions finalReboot : steps.

Create HintDb echo.
#[local] Hint Unfold eEcho iEcho call : echo.

Ltac split_scrut x :=
  lazymatch x with
  | context [match ?y with _ => _ end] => split_scrut y
  | context [DeviceMode_eqb ?s _] => destruct s
  | context [os_IsNotExist ?e] => destruct e as [[?|?]|]
  | context [String.eqb ?a ?b] =>
      match goal with
      | H : String.eqb a b = _ |- _ => rewrite H
      | _ => destruct (String.eqb a b) eqn:?
      end
  | context [negb ?b] => split_scrut b
  | _ => destruct x
  end.

Ltac head_scrut p :=
  lazymatch p with
  | bind ?q _ => head_scrut q
  | match ?x with _ => _ end => x
  end.

Ltac exec_step :=
  lazymatch goal with
  | |- forall _, _ => intro
  | |- wp (Vis _ _) _ => cbn [wp]; intro
  | |- wp (Ret _) _ => cbn [wp]
  | |- wp (OsExit _) _ => cbn [wp]
  | |- wp (Panic _) _ => cbn [wp]
  | |- wp ?p _ =>
      first [ let x := head_scrut p in split_scrut x; cbn -[wp String.eqb]
            | progress autounfold with echo ]
  end.

Ltac exec := cbn -[wp String.eqb]; repeat exec_step.

(** Every path through the steps that are in sight. *)
Ltac block := unfold always, exits_with, ends_with; autounfold with steps; exec.

Ltac units := repeat match goal with u : unit |- _ => destruct u end.

Ltac shape := units; repeat first [ reflexivity | progress cbn | econstructor ].

Ltac prefix_of_four :=
  first [ exists 0%nat; reflexivity | exists 1%nat; reflexivity
        | exists 2%nat; reflexivity | exists 3%nat; reflexivity
        | exists 4%nat; reflexivity ].

Ltac prefix_of_three :=
  first [ exists 0%nat; reflexivity | exists 1%nat; reflexivity
        | exists 2%nat; reflexivity | exists 3%nat; reflexivity ].

Ltac wrong_code :=
  match goal with
  | H : @eq (Outcome _) _ _ |- _ => vm_compute in H; discriminate H
  end.

(** The three answers [os.Stat] can give, as far as [os.IsNotExist] tells
    them apart. *)
Ltac stat_answer tac :=
  match goal with
  | a : DownloadRequest |- _ =>
      exists a;
      first [ exists None; solve [ tac ]
            | eexists (Some (ErrOther _)); solve [ tac ]
            | eexists (Some (ErrNotExist _)); solve [ tac ] ]
  end.

Ltac unlock_outcome :=
  first [ left; eexists; split; reflexivity
        | right; eexists; split; reflexivity ].

(** After the lock query: the leaf of a run that asked for the unlock. *)
Ltac locked_leaf :=
  eexists; split; [ reflexivity | ]; cbn;
  split; [ reflexivity | split; [ eauto | unlock_outcome ] ].

(** ** Running and reasoning *)

Lemma wp_mono {R : Type} (p : Prog R) (Q Q' : list Entry -> Outcome R -> Prop) :
  (forall l o, Q l o -> Q' l o) -> wp p Q -> wp p Q'.
Proof.
  revert Q Q'.
  induction p as [r | T e k IH | c | e]; intros Q Q' HQ Hp; cbn in *; auto.
  intro r. eapply IH; [ | apply Hp ]. intros l o. apply HQ.
Qed.

Lemma wp_run {R : Type} (p : Prog R) (Q : list Entry -> Outcome R -> Prop) :
  wp p Q ->
  forall (W : Type) (handler : forall T, Event T -> W -> T * W) (w : W),
    Q (log (run handler p w)) (outcome (run handler p w)).
Proof.
  intros Hp W handler. revert Q Hp.
  induction p as [r | T e k IH | c | e]; intros Q Hp w; cbn in *; auto.
  destruct (handler T e w) as [r w']. cbn.
  apply (IH r (fun l o => Q (entry e r :: l) o)). apply Hp.
Qed.

(** Running a sequence: the first program, and the second from the world
    the first left, unless the first ended the process. *)
Lemma run_bind {A R W : Type} (handler : forall T, Event T -> W -> T * W)
      (p : Prog A) (k : A -> Prog R) (w : W) :
  run handler (bind p k) w
  = match outcome (run handler p w) with
    | Returned a =>
        let rest := run handler (k a) (final (run handler p w)) in
        {| log := log (run handler p w) ++ log rest;
           outcome := outcome rest;
           final := final rest |}
    | Exited c =>
        {| log := log (run handler p w);
           outcome := Exited c;
           final := final (run handler p w) |}
    | Panicked e =>
        {| log := log (run handler p w);
           outcome := Panicked e;
           final := final (run handler p w) |}
    end.
Proof.
  revert w.
  induction p as [r | T e h IH | c | e]; intro w; cbn.
  - now destruct (run handler (k r) w).
  - destruct (handler T e w) as [r w']. rewrite IH.
    now destruct (outcome (run handler (h r) w')).
  - reflexivity.
  - reflexivity.
Qed.

Lemma wp_conj {R : Type} (p : Prog R) (Q Q' : list Entry -> Outcome R -> Prop) :
  wp p Q -> wp p Q' -> wp p (fun l o => Q l o /\ Q' l o).
Proof.
  revert Q Q'.
  induction p as [r | T e k IH | c | e]; intros Q Q' Hp Hp'; cbn in *;
    [ now split | | now split | now split ].
  intro r. apply (IH r (fun l o => Q (entry e r :: l) o)
                       (fun l o => Q' (entry e r :: l) o)); auto.
Qed.

(** Sequencing: the second program runs only where the first returns, and
    the logs are appended. *)
Lemma wp_bind {A R : Type} (p : Prog A) (k : A -> Prog R)
      (Q : list Entry -> Outcome R -> Prop) :
  wp p (fun l o =>
          match o with
          | Returned a => wp (k a) (fun l' o' => Q (l ++ l')%list o')
          | Exited c => Q l (Exited c)
          | Panicked e => Q l (Panicked e)
          end) ->
  wp (bind p k) Q.
Proof.
  revert Q.
  induction p as [r | T e h IH | c | e]; intros Q Hp; cbn in *;
    [ exact Hp | intro r; apply IH; apply Hp | exact Hp | exact Hp ].
Qed.

Lemma wp_true {R : Type} (p : Prog R) : wp p (fun _ _ => True).
Proof. induction p as [r | T e k IH | c | e]; cbn; auto. Qed.

Lemma always_bind (N : list Entry -> Prop) {A R : Type} (p : Prog A) (k : A -> Prog R) :
  (forall l l', N l -> N l' -> N (l ++ l')%list) ->
  always N p -> (forall a, always N (k a)) -> always N (bind p k).
Proof.
  intros Happ Hp Hk. apply wp_bind. revert Hp. apply wp_mono.
  intros l o Hl. destruct o as [a | c | e]; auto.
  generalize (Hk a). apply wp_mono. intros l' _ Hl'. auto.
Qed.

(** What the first step has established of the log stays true when later
    steps add to it. *)
Lemma always_prefix (N : list Entry -> Prop) {A R : Type} (p : Prog A) (k : A -> Prog R) :
  (forall l l', N l -> N (l ++ l')%list) ->
  always N p -> always N (bind p k).
Proof.
  intros Happ Hp. apply wp_bind. revert Hp. apply wp_mono.
  intros l o Hl. destruct o as [a | c | e]; auto.
  generalize (wp_true (k a)). apply wp_mono. intros l' _ _. auto.
Qed.

(** Stepping over a step whose log satisfies [N], for a property [Q] of the
    whole run that such a prefix does not disturb. *)
Lemma wp_after (N : list Entry -> Prop) {A R : Type} (p : Prog A) (k : A -> Prog R)
      (Q : list Entry -> Outcome R -> Prop) :
  always N p ->
  (forall l c, N l -> Q l (Exited c)) ->
  (forall l e, N l -> Q l (Panicked e)) ->
  (forall l l' o, N l -> Q l' o -> Q (l ++ l')%list o) ->
  (forall a, wp (k a) Q) ->
  wp (bind p k) Q.
Proof.
  intros Hp Hexit Hpanic Happ Hk. apply wp_bind. revert Hp. apply wp_mono.
  intros l o Hl. destruct o as [a | c | e]; auto.
  generalize (Hk a). apply wp_mono. intros l' o'. auto.
Qed.

Lemma exits_with_bind (P : list Entry -> Z -> Prop) {A R : Type}
      (p : Prog A) (k : A -> Prog R) :
  (forall l l' c, P l' c -> P (l ++ l')%list c) ->
  exits_with P p -> (forall a, exits_with P (k a)) -> exits_with P (bind p k).
Proof.
  intros Happ Hp Hk. apply wp_bind. revert Hp. apply wp_mono.
  intros l o Hl. destruct o as [a | c | e]; auto.
  generalize (Hk a). apply wp_mono. intros l' o'. destruct o'; auto.
Qed.

Lemma ends_with_bind (P : list Entry -> Z -> Prop) {A R : Type}
      (p : Prog A) (k : A -> Prog R) :
  (forall l l' c, P l' c -> P (l ++ l')%list c) ->
  exits_with P p -> (forall a, ends_with P (k a)) -> ends_with P (bind p k).
Proof.
  intros Happ Hp Hk. apply wp_bind. revert Hp. apply wp_mono.
  intros l o Hl. destruct o as [a | c | e]; auto.
  generalize (Hk a). apply wp_mono. intros l' o'. destruct o'; auto.
Qed.

(** ** Exit codes *)

Lemma documentedb_In (c : Z) : documentedb c = true -> In c documented_codes.
Proof.
  unfold documentedb. rewrite existsb_exists.
  intros [x [Hx Heq]]. apply Z.eqb_eq in Heq. now subst.
Qed.

Lemma install_exit_codes (B : Build) :
  ends_with (fun _ c => documentedb c = true) (install B).
Proof.
  unfold install, installUnlocked.
  repeat (apply ends_with_bind; [ auto | block; reflexivity | intro ]).
  block; reflexivity.
Qed.

(** C6, as the code has it.  A run of [main] ends in one of three ways.
    The flag package ends the process itself, before anything else is done:
    with status 2, which is none of the documented codes, on a command line
    it rejects, and with status 0 on a request for help.  Or [os.Executable]
    fails right after the flags are parsed and [main] panics, which ends the
    process without any of the documented codes.  Or the run ends through
    [exit] with one of the ten documented codes, which are pairwise distinct
    and lie in their bands (the success band strictly between [SuccessBase]
    and [ErrorBase], the error band above [ErrorBase]). *)
Theorem exit_code_totality (B : Build) (W : Type)
        (handler : forall T, Event T -> W -> T * W) (w : W) :
  let r := run handler (main B) w in
  NoDup documented_codes /\
  Forall (fun c => SuccessBase < c < ErrorBase)%Z success_band /\
  Forall (fun c => ErrorBase < c)%Z error_band /\
  ~ In 2%Z documented_codes /\
  exists parsed rest,
    log r = entry flag_Parse parsed :: rest /\
    match parsed with
    | Rejected => rest = [] /\ outcome r = Exited 2
    | HelpRequested => rest = [] /\ outcome r = Exited 0
    | Accepted _ =>
        match outcome r with
        | Exited c => In c documented_codes
        | Panicked e => exists p, rest = [ entry os_Executable (p, Some e) ]
        | Returned _ => False
        end
    end.
Proof.
  intro r. split; [ | split; [ | split; [ | split ] ] ].
  - repeat constructor; cbn; intuition discriminate.
  - repeat constructor; cbn; lia.
  - repeat constructor; cbn; lia.
  - cbn. intuition discriminate.
  - subst r.
    apply (wp_run (main B)
             (fun l o =>
                exists parsed rest,
                  l = entry flag_Parse parsed :: rest /\
                  match parsed with
                  | Rejected => rest = [] /\ o = Exited 2
                  | HelpRequested => rest = [] /\ o = Exited 0
                  | Accepted _ =>
                      match o with
                      | Exited c => In c documented_codes
                      | Panicked e => exists p, rest = [ entry os_Executable (p, Some e) ]
                      | Returned _ => False
                      end
                  end)).
    unfold main. apply wp_bind. unfold versionOrContinue. exec.
    all: try (eexists _, _; split; [ reflexivity | ]; cbv beta iota;
              first [ split; reflexivity | apply documentedb_In; reflexivity ]).
    apply wp_bind. unfold enterInstallerDir. exec.
    all: try (eexists _, _; split; [ reflexivity | ]; cbv beta iota;
              first [ apply documentedb_In; reflexivity | eexists; reflexivity ]).
    all: generalize (install_exit_codes B); apply wp_mono;
      intros l [ ? | c | ? ] H; [ destruct H | | destruct H ];
      eexists _, _; (split; [ reflexivity | ]); cbv beta iota;
      apply documentedb_In; exact H.
Qed.

(** C6 as stated fails where [os.Executable] fails: the run ends by
    [panic], not by [exit] with a documented code. *)
Lemma panic_is_not_a_documented_exit :
  outcome (run scripted (main linux) no_executable)
  = Panicked (ErrOther "cannot determine the path of the executable") /\
  ~ (exists c, outcome (run scripted (main linux) no_executable) = Exited c /\
               In c documented_codes).
Proof.
  split; [ reflexivity | ].
  intros [c [H _]]. discriminate H.
Qed.

(** A command line the flag package rejects ends the process with status
    2, which is not a documented code either. *)
Lemma rejected_command_line_exits_with_2 :
  log (run scripted (main linux) rejected_command_line) = [ entry flag_Parse Rejected ] /\
  outcome (run scripted (main linux) rejected_command_line) = Exited 2 /\
  documentedb 2 = false.
Proof. repeat split. Qed.

(** ** The pause before [os.Exit] *)

Lemma ends_paused_app (l l' : list Entry) :
  ends_paused l' = true -> ends_paused (l ++ l') = true.
Proof.
  unfold ends_paused. rewrite rev_app_distr.
  destruct (rev l') as [ | x [ | y t ] ]; try discriminate. cbn. auto.
Qed.

Lemma ends_paused_cons (x : Entry) (l : list Entry) :
  ends_paused l = true -> ends_paused (x :: l) = true.
Proof. apply (ends_paused_app [x]). Qed.

Lemma existsb_false_app {A : Type} (f : A -> bool) (l l' : list A) :
  existsb f l = false -> existsb f l' = false -> existsb f (l ++ l') = false.
Proof. intros H H'. rewrite existsb_app, H, H'. reflexivity. Qed.

Lemma existsb_false_cons {A : Type} (f : A -> bool) (x : A) (l : list A) :
  f x = false -> existsb f l = false -> existsb f (x :: l) = false.
Proof. intros H H'. cbn. rewrite H, H'. reflexivity. Qed.

Lemma install_paused (B : Build) :
  String.eqb (GOOS B) "windows" = true ->
  ends_with (fun l _ => ends_paused l = true) (install B).
Proof.
  intro Hos. unfold install, installUnlocked.
  repeat (apply ends_with_bind;
          [ intros; now apply ends_paused_app | block; reflexivity | intro ]).
  block; reflexivity.
Qed.

Lemma install_not_paused (B : Build) :
  String.eqb (GOOS B) "windows" = false ->
  always (fun l => existsb is_pause_print l = false) (install B).
Proof.
  intro Hos. unfold install, installUnlocked.
  repeat (apply always_bind;
          [ intros; now apply existsb_false_app | block; reflexivity | intro ]).
  block; reflexivity.
Qed.

Lemma install_exits_unpaused (B : Build) :
  String.eqb (GOOS B) "windows" = false ->
  ends_with (fun l _ => existsb is_pause_print l = false) (install B).
Proof.
  intro Hos.
  generalize (@wp_conj unit (install B)
                (fun _ o => match o with
                            | Exited c => documentedb c = true
                            | _ => False
                            end)
                (fun l _ => existsb is_pause_print l = false)
                (install_exit_codes B) (install_not_paused B Hos)).
  apply wp_mono. intros l [ ? | c | ? ] [H H']; auto.
Qed.

(** C10, as the code has it.  [exit] itself: on Windows it prints the
    prompt and calls [reader.ReadLine] once, whatever that read returns,
    before [os.Exit]; elsewhere it calls [os.Exit] at once.  A run of
    [main] whose command line the flag package accepts: if it ends through
    [os.Exit] it ends, on Windows, with that prompt and that read as its
    last two interactions, and on the other platforms never shows the
    prompt; if it ends by the [panic] on a failed [os.Executable], the
    process ends without the prompt, on Windows too.  A run whose command
    line the flag package rejects, or that asks for help, is ended by that
    package at once: nothing is printed or read by [main]. *)
Theorem exit_pause (B : Build) (W : Type)
        (handler : forall T, Event T -> W -> T * W) (w : W) (code : Z) :
  let x := run handler (exit B code : Prog unit) w in
  let r := run handler (main B) w in
  outcome x = Exited code /\
  (if String.eqb (GOOS B) "windows"
   then exists a, log x = [ entry (fmt_Print pause_prompt) tt; entry reader_ReadLine a ]
   else log x = []) /\
  exists parsed rest,
    log r = entry flag_Parse parsed :: rest /\
    match parsed with
    | Accepted _ =>
        match outcome r with
        | Exited _ =>
            if String.eqb (GOOS B) "windows"
            then ends_paused (log r) = true
            else existsb is_pause_print (log r) = false
        | Panicked _ => existsb is_pause_print (log r) = false
        | Returned _ => False
        end
    | HelpRequested | Rejected => rest = []
    end.
Proof.
  intros x r. subst x r.
  destruct (String.eqb (GOOS B) "windows") eqn:Hos.
  - split; [ | split ].
    + cbn. rewrite Hos. cbn. destruct (handler _ _ _) as [[] w1]. cbn.
      destruct (handler _ _ _). reflexivity.
    + cbn. rewrite Hos. cbn. destruct (handler _ _ _) as [[] w1]. cbn.
      destruct (handler _ _ _) as [a w2]. exists a. reflexivity.
    + apply (wp_run (main B)
               (fun l o =>
                  exists parsed rest,
                    l = entry flag_Parse parsed :: rest /\
                    match parsed with
                    | Accepted _ =>
                        match o with
                        | Exited _ => ends_paused l = true
                        | Panicked _ => existsb is_pause_print l = false
                        | Returned _ => False
                        end
                    | HelpRequested | Rejected => rest = []
                    end)).
      unfold main. apply wp_bind. unfold versionOrContinue. exec.
      all: try (eexists _, _; split; reflexivity).
      apply wp_bind. unfold enterInstallerDir. exec.
      all: try (eexists _, _; split; reflexivity).
      all: generalize (install_paused B Hos); apply wp_mono;
        intros l [ ? | c | ? ] H; [ destruct H | | destruct H ];
        eexists _, _; (split; [ reflexivity | ]); cbv beta iota;
        repeat apply ends_paused_cons; exact H.
  - split; [ | split ].
    + cbn. rewrite Hos. reflexivity.
    + cbn. rewrite Hos. reflexivity.
    + apply (wp_run (main B)
               (fun l o =>
                  exists parsed rest,
                    l = entry flag_Parse parsed :: rest /\
                    match parsed with
                    | Accepted _ =>
                        match o with
                        | Exited _ => existsb is_pause_print l = false
                        | Panicked _ => existsb is_pause_print l = false
                        | Returned _ => False
                        end
                    | HelpRequested | Rejected => rest = []
                    end)).
      unfold main. apply wp_bind. unfold versionOrContinue. exec.
      all: try (eexists _, _; split; reflexivity).
      apply wp_bind. unfold enterInstallerDir. exec.
      all: try (eexists _, _; split; reflexivity).
      all: generalize (install_exits_unpaused B Hos); apply wp_mono;
        intros l [ ? | c | ? ] H; [ destruct H | | destruct H ];
        eexists _, _; (split; [ reflexivity | ]); cbv beta iota;
        repeat (apply existsb_false_cons; [ reflexivity | ]); exact H.
Qed.

(** C10 as stated fails on Windows where [os.Executable] fails: the process
    ends without the prompt and without reading a line. *)
Lemma panic_skips_the_pause :
  GOOS windows = "windows" /\
  outcome (run scripted (main windows) no_executable)
  = Panicked (ErrOther "cannot determine the path of the executable") /\
  existsb is_pause_print (log (run scripted (main windows) no_executable)) = false /\
  existsb is_ReadLine (log (run scripted (main windows) no_executable)) = false.
Proof. repeat split. Qed.

(** C10 as stated fails on Windows in three ways.  Where [os.Executable]
    fails the process ends by [panic], and where the flag package rejects
    the command line it ends the process itself: neither shows the prompt
    nor reads a line.  And where the prompt is shown while standard input is
    closed, the read returns an error and the process exits all the same:
    no keypress was needed. *)
Lemma windows_exits_without_keypress :
  GOOS windows = "windows" /\
  outcome (run scripted (main windows) no_executable)
  = Panicked (ErrOther "cannot determine the path of the executable") /\
  filter is_ReadLine (log (run scripted (main windows) no_executable)) = [] /\
  outcome (run scripted (main windows) rejected_command_line) = Exited 2 /\
  filter is_ReadLine (log (run scripted (main windows) rejected_command_line)) = [] /\
  outcome (run scripted (main windows) stdin_closed) = Exited Success /\
  filter is_ReadLine (log (run scripted (main windows) stdin_closed))
  = [ entry reader_ReadLine ("", Some (ErrOther "EOF")) ].
Proof. repeat split. Qed.

(** ** Detecting the device mode and rebooting to the bootloader *)

(** C1, as the code has it.  The first fastboot probe decides.  Any value
    other than NoDevice -- FastbootReady, and equally UsbPermissionDenied or
    any other -- ends the phase at once: nothing more is asked of the device
    and the run goes on to VerifyFastbootReady without a reboot.  When the
    probe says NoDevice the adb probe decides: a failed probe, NoDevice or
    AdbUnauthorized exits with ErrorAdb; UsbPermissionDenied exits with
    ErrorUsbPerms; no reboot is requested on these paths; any other value
    (AdbReady) is followed by the request to reboot into the bootloader. *)
Theorem detectDeviceMode_routes (B : Build) (W : Type)
        (handler : forall T, Event T -> W -> T * W) (w : W) :
  let r := run handler (detectDeviceMode B) w in
  exists s ef rest,
    log r = entry (fmt_Printf ("Checking USB permissions..." ++ nl) []) tt
            :: entry fastboot_Status (s, ef) :: rest /\
    if DeviceMode_eqb s NoDeviceFound
    then exists a ea rest',
        rest = entry adb_Status (a, ea) :: rest' /\
        match ea, a with
        | Some _, _ | None, NoDeviceFound | None, DeviceUnauthorized =>
            outcome r = Exited ErrorAdb /\ existsb is_adb_Reboot rest' = false
        | None, NoUsbPerms =>
            outcome r = Exited ErrorUsbPerms /\ existsb is_adb_Reboot rest' = false
        | None, _ =>
            exists er rest'',
              rest' = entry (fmt_Printf ("Rebooting your device into bootloader..." ++ nl) []) tt
                      :: entry (adb_Reboot "bootloader") er :: rest''
        end
    else rest = [] /\ outcome r = Returned tt.
Proof.
  intro r. subst r.
  apply (wp_run (detectDeviceMode B)
           (fun l o =>
              exists s ef rest,
                l = entry (fmt_Printf ("Checking USB permissions..." ++ nl) []) tt
                    :: entry fastboot_Status (s, ef) :: rest /\
                if DeviceMode_eqb s NoDeviceFound
                then exists a ea rest',
                    rest = entry adb_Status (a, ea) :: rest' /\
                    match ea, a with
                    | Some _, _ | None, NoDeviceFound | None, DeviceUnauthorized =>
                        o = Exited ErrorAdb /\ existsb is_adb_Reboot rest' = false
                    | None, NoUsbPerms =>
                        o = Exited ErrorUsbPerms /\ existsb is_adb_Reboot rest' = false
                    | None, _ =>
                        exists er rest'',
                          rest' = entry (fmt_Printf ("Rebooting your device into bootloader..." ++ nl) []) tt
                                  :: entry (adb_Reboot "bootloader") er :: rest''
                    end
                else rest = [] /\ o = Returned tt)).
  block. all: shape.
Qed.

(** C1 as stated fails for UsbPermissionDenied reported by the fastboot
    probe: the phase neither exits with ErrorUsbPerms nor reboots; it goes
    on to VerifyFastbootReady, so FastbootReady is not the only value that
    advances without a reboot. *)
Lemma detectDeviceMode_passes_no_perms :
  log (run scripted (detectDeviceMode linux) fastboot_no_perms)
  = [ entry (fmt_Printf ("Checking USB permissions..." ++ nl) []) tt;
      entry fastboot_Status (NoUsbPerms, None) ] /\
  outcome (run scripted (detectDeviceMode linux) fastboot_no_perms) = Returned tt /\
  outcome (run scripted (detectDeviceMode linux) fastboot_no_perms)
  <> Exited ErrorUsbPerms.
Proof. repeat split. discriminate. Qed.

(** C8, as the code has it.  The phase asks adb to reboot into the
    bootloader.  If that request fails it exits with ErrorAdb at once.
    Otherwise it sleeps 7000 ms and probes fastboot once; if that probe
    fails or still says NoDevice it exits with ErrorAdb, and for any other
    value (FastbootReady, and equally UsbPermissionDenied) it goes on to
    VerifyFastbootReady.  Nothing that follows in the phase is a wait, a
    probe or a reboot: there is no retry. *)
Theorem rebootToBootloader_single_wait (B : Build) (W : Type)
        (handler : forall T, Event T -> W -> T * W) (w : W) :
  let r := run handler (rebootToBootloader B) w in
  exists er rest,
    log r = entry (fmt_Printf ("Rebooting your device into bootloader..." ++ nl) []) tt
            :: entry (adb_Reboot "bootloader") er :: rest /\
    match er with
    | Some _ => outcome r = Exited ErrorAdb /\ existsb is_retry rest = false
    | None =>
        exists s es rest',
          rest = entry (time_Sleep 7000) tt :: entry fastboot_Status (s, es) :: rest' /\
          existsb is_retry rest' = false /\
          outcome r = if (match es with Some _ => true | None => false end)
                         || DeviceMode_eqb s NoDeviceFound
                      then Exited ErrorAdb
                      else Returned tt
    end.
Proof.
  intro r. subst r.
  apply (wp_run (rebootToBootloader B)
           (fun l o =>
              exists er rest,
                l = entry (fmt_Printf ("Rebooting your device into bootloader..." ++ nl) []) tt
                    :: entry (adb_Reboot "bootloader") er :: rest /\
                match er with
                | Some _ => o = Exited ErrorAdb /\ existsb is_retry rest = false
                | None =>
                    exists s es rest',
                      rest = entry (time_Sleep 7000) tt
                             :: entry fastboot_Status (s, es) :: rest' /\
                      existsb is_retry rest' = false /\
                      o = if (match es with Some _ => true | None => false end)
                             || DeviceMode_eqb s NoDeviceFound
                          then Exited ErrorAdb
                          else Returned tt
                end)).
  block. all: shape.
Qed.

(** C8 as stated fails when the re-probe is neither FastbootReady nor
    NoDevice: the phase does not exit with ErrorAdb. *)
Lemma rebootToBootloader_passes_no_perms :
  log (run scripted (rebootToBootloader linux) reboot_then_no_perms)
  = [ entry (fmt_Printf ("Rebooting your device into bootloader..." ++ nl) []) tt;
      entry (adb_Reboot "bootloader") None;
      entry (time_Sleep 7000) tt;
      entry fastboot_Status (NoUsbPerms, None) ] /\
  outcome (run scripted (rebootToBootloader linux) reboot_then_no_perms) = Returned tt /\
  outcome (run scripted (rebootToBootloader linux) reboot_then_no_perms)
  <> Exited ErrorAdb.
Proof. repeat split. discriminate. Qed.

(** ** The bootloader lock *)

Lemma early_app (l l' : list Entry) : early l -> early l' -> early (l ++ l').
Proof. apply existsb_false_app. Qed.

Lemma early_lock_query (l l' : list Entry) :
  early l -> lock_query (l ++ l') = lock_query l'.
Proof.
  unfold early. induction l as [ | [T e r] l IH ]; cbn; [ reflexivity | ].
  destruct e; cbn; try discriminate; auto.
Qed.

Lemma early_unlock_calls (l l' : list Entry) :
  early l -> filter is_unlock_call (l ++ l') = filter is_unlock_call l'.
Proof.
  unfold early. induction l as [ | [T e r] l IH ]; cbn; [ reflexivity | ].
  destruct e; cbn; try discriminate; auto.
Qed.

Lemma early_fetch_or_flash (l l' : list Entry) :
  early l -> existsb is_fetch_or_flash (l ++ l') = existsb is_fetch_or_flash l'.
Proof.
  unfold early. induction l as [ | [T e r] l IH ]; cbn; [ reflexivity | ].
  destruct e; cbn; try discriminate; auto.
Qed.

Lemma installUnlocked_never_unlocks (B : Build) (product : string) :
  always (fun l => filter is_unlock_call l = []) (installUnlocked B product).
Proof.
  unfold installUnlocked.
  repeat (apply always_bind;
          [ intros l l' H H'; now rewrite filter_app, H, H'
          | block; reflexivity | intro ]).
  block; reflexivity.
Qed.

Lemma installUnlocked_starts (B : Build) (product : string) :
  always (fun l =>
            exists req rest,
              l = entry (fmt_Printf ("Downloading the latest release for your device (%q)..." ++ nl)
                                    [product]) tt
                  :: entry remote_RequestNethunter req :: rest)
         (installUnlocked B product).
Proof.
  unfold installUnlocked, fetchArtifacts.
  do 2 (apply always_prefix;
        [ intros l l' [req [rest H]]; subst l; cbn; eauto | ]).
  block. all: shape.
Qed.

Lemma installUnlocked_summary (B : Build) (product : string) :
  always (fun l =>
            filter is_unlock_call l = [] /\
            exists req rest,
              l = entry (fmt_Printf ("Downloading the latest release for your device (%q)..." ++ nl)
                                    [product]) tt
                  :: entry remote_RequestNethunter req :: rest)
         (installUnlocked B product).
Proof.
  apply (@wp_conj unit (installUnlocked B product)
           (fun l _ => filter is_unlock_call l = [])
           (fun l _ =>
              exists req rest,
                l = entry (fmt_Printf ("Downloading the latest release for your device (%q)..." ++ nl)
                                      [product]) tt
                    :: entry remote_RequestNethunter req :: rest)).
  - apply installUnlocked_never_unlocks.
  - apply installUnlocked_starts.
Qed.

(** C2, as the code has it.  In a run that asks for the lock state: if the
    answer is unlocked, neither [fastboot.Unlock] nor [fastboot.Reboot] is
    called anywhere in the run and the fetch phase begins (the update
    package is requested).  If the answer is locked, nothing of the fetch
    and flash phases happens, [fastboot.Unlock] is called once, and then:
    if it succeeds, [fastboot.Reboot] is called once after it and the run
    exits with SuccessBootloaderUnlocked; if it fails, there is no reboot
    and the run exits with ErrorFastboot.  A run that ends before the lock
    check calls neither. *)
Theorem unlock_ends_the_run (B : Build) (W : Type)
        (handler : forall T, Event T -> W -> T * W) (w : W) :
  let r := run handler (main B) w in
  match lock_query (log r) with
  | None => filter is_unlock_call (log r) = []
  | Some ((true, _), rest) =>
      filter is_unlock_call (log r) = [] /\
      exists req, In (entry remote_RequestNethunter req) rest
  | Some ((false, _), _) =>
      existsb is_fetch_or_flash (log r) = false /\
      ((exists er,
          filter is_unlock_call (log r)
          = [ entry fastboot_Unlock None; entry fastboot_Reboot er ] /\
          outcome r = Exited SuccessBootloaderUnlocked) \/
       (exists e,
          filter is_unlock_call (log r) = [ entry fastboot_Unlock (Some e) ] /\
          outcome r = Exited ErrorFastboot))
  end.
Proof.
  intro r. subst r.
  set (Q := fun (l : list Entry) (o : Outcome unit) =>
              match lock_query l with
              | None => filter is_unlock_call l = []
              | Some ((true, _), rest) =>
                  filter is_unlock_call l = [] /\
                  exists req, In (entry remote_RequestNethunter req) rest
              | Some ((false, _), _) =>
                  existsb is_fetch_or_flash l = false /\
                  ((exists er,
                      filter is_unlock_call l
                      = [ entry fastboot_Unlock None; entry fastboot_Reboot er ] /\
                      o = Exited SuccessBootloaderUnlocked) \/
                   (exists e,
                      filter is_unlock_call l = [ entry fastboot_Unlock (Some e) ] /\
                      o = Exited ErrorFastboot))
              end).
  assert (Happ : forall l l' o, early l -> Q l' o -> Q (l ++ l')%list o).
  { intros l l' o H H'. unfold Q in *.
    rewrite early_lock_query, early_unlock_calls, early_fetch_or_flash by exact H.
    exact H'. }
  assert (Hq : forall l o, early l -> Q l o).
  { intros l o H. rewrite <- (app_nil_r l). apply Happ; [ exact H | reflexivity ]. }
  apply (wp_run (main B) Q). unfold main.
  repeat (apply (wp_after early);
          [ block; reflexivity
          | intros; apply Hq; assumption
          | intros; apply Hq; assumption
          | exact Happ
          | intro ]).
  apply wp_bind. unfold ensureBootloaderUnlocked. exec.
  all: units.
  all: lazymatch goal with
       | |- wp (bind (fetchArtifacts _ ?p) _) _ =>
           generalize (installUnlocked_summary B p); apply wp_mono;
           intros l o [H1 [req [rest H2]]]; unfold Q; cbn; rewrite H1;
           split; [ reflexivity | exists req; subst l; cbn; auto ]
       | |- _ =>
           unfold Q; cbn; split;
           [ reflexivity
           | first [ left; eexists; split; reflexivity
                   | right; eexists; split; reflexivity ] ]
       end.
Qed.

(** C7, as the code has it.  Where the lock-state query fails, the next
    thing the run does is print the warning; the failed query alone never
    ends the run.  The run then follows the flag returned with the error,
    exactly as after a query that succeeded.  If the flag says unlocked, the
    fetch phase begins and neither [fastboot.Unlock] nor [fastboot.Reboot]
    is called.  If it says locked, the unlock is requested and the run ends
    there, with nothing fetched or flashed: with SuccessBootloaderUnlocked
    after the reboot if the unlock succeeds, with ErrorFastboot if it
    fails. *)
Theorem lock_query_failure_is_advisory (B : Build) (W : Type)
        (handler : forall T, Event T -> W -> T * W) (w : W)
        (unlocked : bool) (e : GoError) (rest : list Entry) :
  lock_query (log (run handler (main B) w)) = Some ((unlocked, Some e), rest) ->
  exists rest',
    rest = entry (fmt_Printf (("Warning: unable to determine bootloader lock state: "
                               ++ Error e) ++ nl) []) tt :: rest' /\
    if unlocked
    then filter is_unlock_call (log (run handler (main B) w)) = [] /\
         exists product req rest'',
           rest' = entry (fmt_Printf ("Downloading the latest release for your device (%q)..." ++ nl)
                                     [product]) tt
                   :: entry remote_RequestNethunter req :: rest''
    else existsb is_fetch_or_flash (log (run handler (main B) w)) = false /\
         (exists eu rest'',
             rest' = entry (fmt_Printf ("Unlocking bootloader, you will need to confirm this on your device..." ++ nl)
                                       []) tt
                     :: entry fastboot_Unlock eu :: rest'') /\
         ((exists er,
              filter is_unlock_call (log (run handler (main B) w))
              = [ entry fastboot_Unlock None; entry fastboot_Reboot er ] /\
              outcome (run handler (main B) w) = Exited SuccessBootloaderUnlocked) \/
          (exists e',
              filter is_unlock_call (log (run handler (main B) w))
              = [ entry fastboot_Unlock (Some e') ] /\
              outcome (run handler (main B) w) = Exited ErrorFastboot)).
Proof.
  revert unlocked e rest.
  set (Q := fun (l : list Entry) (o : Outcome unit) =>
              forall unlocked e rest,
                lock_query l = Some ((unlocked, Some e), rest) ->
                exists rest',
                  rest = entry (fmt_Printf (("Warning: unable to determine bootloader lock state: "
                                             ++ Error e) ++ nl) []) tt :: rest' /\
                  if unlocked
                  then filter is_unlock_call l = [] /\
                       exists product req rest'',
                         rest' = entry (fmt_Printf ("Downloading the latest release for your device (%q)..." ++ nl)
                                                   [product]) tt
                                 :: entry remote_RequestNethunter req :: rest''
                  else existsb is_fetch_or_flash l = false /\
                       (exists eu rest'',
                           rest' = entry (fmt_Printf ("Unlocking bootloader, you will need to confirm this on your device..." ++ nl)
                                                     []) tt
                                   :: entry fastboot_Unlock eu :: rest'') /\
                       ((exists er,
                            filter is_unlock_call l
                            = [ entry fastboot_Unlock None; entry fastboot_Reboot er ] /\
                            o = Exited SuccessBootloaderUnlocked) \/
                        (exists e',
                            filter is_unlock_call l = [ entry fastboot_Unlock (Some e') ] /\
                            o = Exited ErrorFastboot))).
  assert (Happ : forall l l' o, early l -> Q l' o -> Q (l ++ l')%list o).
  { intros l l' o H H'. unfold Q in *. intros u e rest Hl.
    rewrite early_lock_query in Hl by exact H.
    rewrite early_unlock_calls, early_fetch_or_flash by exact H.
    apply H'. exact Hl. }
  assert (Hq : forall l o, early l -> Q l o).
  { intros l o H. rewrite <- (app_nil_r l). apply Happ; [ exact H | ].
    intros u e' rest' Hnone. discriminate Hnone. }
  apply (wp_run (main B) Q). unfold main.
  repeat (apply (wp_after early);
          [ block; reflexivity
          | intros; apply Hq; assumption
          | intros; apply Hq; assumption
          | exact Happ
          | intro ]).
  apply wp_bind. unfold ensureBootloaderUnlocked. exec.
  all: units.
  all: lazymatch goal with
       | |- wp (bind (fetchArtifacts _ ?p) _) _ =>
           generalize (installUnlocked_summary B p); apply wp_mono;
           intros l o [H1 [req [rest H]]] u e' rest' Hl; cbn in Hl;
           inversion Hl; subst; eexists; split; try reflexivity; cbn;
           split; try exact H1; eauto
       | |- _ =>
           intros u e' rest' Hl; cbn in Hl;
           inversion Hl; subst; locked_leaf
       end.
Qed.

(** C2 as stated fails when the device is locked and [fastboot.Unlock]
    fails: there is no reboot and the run ends with ErrorFastboot, not with
    SuccessBootloaderUnlocked. *)
Lemma unlock_refused_exits_with_ErrorFastboot :
  filter is_lock_query (log (run scripted (main linux) unlock_refused))
  = [ entry fastboot_Unlocked (false, None) ] /\
  filter is_unlock_call (log (run scripted (main linux) unlock_refused))
  = [ entry fastboot_Unlock (Some (ErrOther "FAILED (remote: oem unlock is not allowed)")) ] /\
  outcome (run scripted (main linux) unlock_refused) = Exited ErrorFastboot /\
  outcome (run scripted (main linux) unlock_refused) <> Exited SuccessBootloaderUnlocked.
Proof. repeat split. discriminate. Qed.

Lemma lock_state_unknown_run_goes_on :
  exists rest,
    lock_query (log (run scripted (main linux) lock_state_unknown))
    = Some ((true, Some (ErrOther "getvar:unlocked FAILED")), rest) /\
    exists rest',
      rest = entry (fmt_Printf (("Warning: unable to determine bootloader lock state: "
                                 ++ "getvar:unlocked FAILED") ++ nl) []) tt :: rest' /\
      filter is_unlock_call (log (run scripted (main linux) lock_state_unknown)) = [] /\
      exists product req rest'',
        rest' = entry (fmt_Printf ("Downloading the latest release for your device (%q)..." ++ nl)
                                  [product]) tt
                :: entry remote_RequestNethunter req :: rest''.
Proof.
  eexists. split.
  - vm_compute. reflexivity.
  - apply (@lock_query_failure_is_advisory linux World scripted lock_state_unknown
             true (ErrOther "getvar:unlocked FAILED")).
    vm_compute. reflexivity.
Defined.

(** C7 as stated fails where the flag returned with the error is false: the
    unknown lock state is treated as locked.  The unlock is requested and
    the run ends there, with SuccessBootloaderUnlocked and nothing fetched
    if the unlock is accepted, with the error code ErrorFastboot if it is
    refused. *)
Lemma unknown_lock_state_is_treated_as_locked :
  filter is_lock_query (log (run scripted (main linux) lock_state_unknown_locked))
  = [ entry fastboot_Unlocked (false, Some (ErrOther "getvar:unlocked FAILED")) ] /\
  filter is_unlock_call (log (run scripted (main linux) lock_state_unknown_locked))
  = [ entry fastboot_Unlock None; entry fastboot_Reboot None ] /\
  existsb is_fetch_or_flash (log (run scripted (main linux) lock_state_unknown_locked))
  = false /\
  outcome (run scripted (main linux) lock_state_unknown_locked)
  = Exited SuccessBootloaderUnlocked /\
  filter is_lock_query (log (run scripted (main linux) lock_state_unknown_unlock_refused))
  = [ entry fastboot_Unlocked (false, Some (ErrOther "getvar:unlocked FAILED")) ] /\
  outcome (run scripted (main linux) lock_state_unknown_unlock_refused)
  = Exited ErrorFastboot.
Proof. repeat split. Qed.

(** ** Identifying the device *)

(** Whatever product string fastboot answers is the string the phase hands
    on: no answer is replaced by another name. *)
Lemma identifyDevice_returns_answer (B : Build) (W : Type)
      (handler : forall T, Event T -> W -> T * W) (w : W) :
  let r := run handler (identifyDevice B) w in
  match outcome r with
  | Returned product =>
      log r = [ entry (fmt_Printf ("Identifying your device..." ++ nl) []) tt;
                entry fastboot_GetProduct (product, None) ]
  | Exited c => c = ErrorFastboot
  | Panicked _ => False
  end.
Proof.
  intro r. subst r.
  apply (wp_run (identifyDevice B)
           (fun l o =>
              match o with
              | Returned product =>
                  l = [ entry (fmt_Printf ("Identifying your device..." ++ nl) []) tt;
                        entry fastboot_GetProduct (product, None) ]
              | Exited c => c = ErrorFastboot
              | Panicked _ => False
              end)).
  block. all: shape.
Qed.

(** C3 on the code: with the product string "QC_Reference_Phone" the TWRP
    request is built from that string, not from "cheeseburger". *)
Theorem vendor_alias_is_not_normalized :
  flat_map new_request_url (log (run scripted (main linux) vendor_alias))
  = [ "https://dl.twrp.me/QC_Reference_Phone/twrp-3.1.1-1-QC_Reference_Phone.img" ] /\
  genTWRPDeviceUrl "cheeseburger"
  = "https://dl.twrp.me/cheeseburger/twrp-3.1.1-1-cheeseburger.img" /\
  existsb (String.eqb (genTWRPDeviceUrl "cheeseburger"))
          (flat_map new_request_url (log (run scripted (main linux) vendor_alias)))
  = false.
Proof. repeat split. Qed.

(** ** Fetching the artifacts *)

(** The one [os.Stat] of the recovery-image step is on the path of the TWRP
    image it was handed. *)
Lemma fetchOxygenRecovery_stats_twrp (B : Build) (twrp : string) (W : Type)
      (handler : forall T, Event T -> W -> T * W) (w : W) :
  let r := run handler (fetchOxygenRecovery B twrp) w in
  flat_map stat_path (log r) = [] \/ flat_map stat_path (log r) = [ twrp ].
Proof.
  intro r. subst r.
  apply (wp_run (fetchOxygenRecovery B twrp)
           (fun l _ => flat_map stat_path l = [] \/ flat_map stat_path l = [ twrp ])).
  block. all: first [ left; reflexivity | right; reflexivity ].
Qed.


(** Nothing is downloaded, and the image that is not on disk is booted. *)
Lemma missing_recovery_image_is_booted :
  existsb (existsb (String.eqb "recovery_op5.img")) (directory recovery_image_missing)
  = false /\
  flat_map download_file (log (run scripted (main linux) recovery_image_missing)) = [] /\
  flat_map boot_image (log (run scripted (main linux) recovery_image_missing))
  = [ "recovery_op5.img" ].
Proof. repeat split. Qed.

(** C5, as the code has it.  The requests go out in the order update
    package, TWRP image (the recovery booted to install the update package),
    OxygenOS recovery image (the recovery booted to flash the factory
    image), factory image: the requests of any run are a prefix of that
    list, and the TWRP request is for the URL of the product string.  The
    phase does nothing but write to the console, request, [os.Stat] and
    download, so it removes no file.  If every request and download
    succeeds, all four are requested and the phase returns; otherwise the
    call that failed is the last one made, no later artifact is requested,
    and the run exits with ErrorRemote. *)
Theorem fetchArtifacts_order (B : Build) (product : string) (W : Type)
        (handler : forall T, Event T -> W -> T * W) (w : W) :
  let r := run handler (fetchArtifacts B product) w in
  let calls := flat_map fetch_call (log r) in
  (exists n, flat_map requested calls
             = firstn n [ Nethunter; TWRP; OxygenRecovery; Factory ]) /\
  (flat_map new_request_url (log r) = [] \/
   flat_map new_request_url (log r) = [ genTWRPDeviceUrl product ]) /\
  forallb is_fetch_event (log r) = true /\
  if forallb call_ok calls
  then flat_map requested calls = [ Nethunter; TWRP; OxygenRecovery; Factory ] /\
       exists a, outcome r = Returned a
  else last_failed calls = true /\ outcome r = Exited ErrorRemote.
Proof.
  intros r calls. subst calls r.
  apply (wp_run (fetchArtifacts B product)
           (fun l o =>
              (exists n, flat_map requested (flat_map fetch_call l)
                         = firstn n [ Nethunter; TWRP; OxygenRecovery; Factory ]) /\
              (flat_map new_request_url l = [] \/
               flat_map new_request_url l = [ genTWRPDeviceUrl product ]) /\
              forallb is_fetch_event l = true /\
              if forallb call_ok (flat_map fetch_call l)
              then flat_map requested (flat_map fetch_call l)
                   = [ Nethunter; TWRP; OxygenRecovery; Factory ] /\
                   exists a, o = Returned a
              else last_failed (flat_map fetch_call l) = true /\
                   o = Exited ErrorRemote)).
  block.
  all: split; [ prefix_of_four | ].
  all: split; [ first [ left; reflexivity | right; reflexivity ] | ].
  all: split; [ reflexivity | ].
  all: cbn; split; [ reflexivity | ]; first [ reflexivity | eexists; reflexivity ].
Qed.

(** C5 as stated fails on the order: the image booted to flash the factory
    image (the OxygenOS recovery) is requested third, after the image booted
    to install the update package (TWRP), which is requested second. *)
Lemma requests_put_TWRP_before_the_recovery :
  flat_map requested (flat_map fetch_call (log (run scripted (main linux) everything_present)))
  = [ Nethunter; TWRP; OxygenRecovery; Factory ] /\
  filter is_fetch_or_flash (log (run scripted (main linux) everything_present))
  = [ entry remote_RequestNethunter (Ok (request "nethunter-generic.zip"));
      entry (os_Stat "nethunter-generic.zip") None;
      entry (net_NewDownloadRequest (genTWRPDeviceUrl "cheeseburger"))
            (Ok (request "twrp-3.1.1-1-cheeseburger.img"));
      entry (os_Stat "twrp-3.1.1-1-cheeseburger.img") None;
      entry remote_RequestOxygenRecovery (Ok (request "recovery_op5.img"));
      entry (os_Stat "twrp-3.1.1-1-cheeseburger.img") None;
      entry remote_RequestFactory (Ok (request "OnePlus5Oxygen.zip"));
      entry (os_Stat "OnePlus5Oxygen.zip") None;
      entry (fastboot_Boot "recovery_op5.img") None;
      entry (adb_Sideload "OnePlus5Oxygen.zip") None;
      entry (fastboot_Boot "twrp-3.1.1-1-cheeseburger.img") None;
      entry (adb_PushFg "nethunter-generic.zip" "/sdcard") None;
      entry (adb_Shell "twrp install /sdcard/nethunter-generic.zip") None;
      entry (adb_Shell "twrp wipe cache") None;
      entry (adb_Shell "twrp wipe dalvik") None;
      entry (adb_Shell "twrp wipe data") None ] /\
  outcome (run scripted (main linux) everything_present) = Exited Success /\
  flat_map requested (flat_map fetch_call (log (run scripted (main linux) everything_present)))
  <> [ Nethunter; OxygenRecovery; TWRP; Factory ].
Proof. repeat split. discriminate. Qed.

(** ** Wiping *)

Lemma wipe_command_app (l l' : list Entry) :
  flat_map wipe_command l = [] ->
  flat_map wipe_command (l ++ l') = flat_map wipe_command l'.
Proof. intro H. rewrite flat_map_app, H. reflexivity. Qed.

(** C9.  The wipe phase talks to the device in one of four ways, and in no
    other: cache fails; cache, a 1000 ms sleep, dalvik fails; cache, sleep,
    dalvik, sleep, data fails; or all three succeed, each followed by its
    1000 ms sleep.  A failure exits with ErrorTWRP and nothing is sent to
    the device after it; only the last case returns.  Over a whole run of
    [main], the wipe commands sent are a prefix of cache, dalvik, data: no
    other step sends one. *)
Theorem wipe_order (B : Build) (W : Type)
        (handler : forall T, Event T -> W -> T * W) (w : W) :
  let r := run handler (wipeCachePartitions B) w in
  let calls := filter (fun x => negb (is_console x)) (log r) in
  ((exists e,
      calls = [ entry (adb_Shell "twrp wipe cache") (Some e) ] /\
      outcome r = Exited ErrorTWRP) \/
   (exists e,
      calls = [ entry (adb_Shell "twrp wipe cache") None;
                entry (time_Sleep 1000) tt;
                entry (adb_Shell "twrp wipe dalvik") (Some e) ] /\
      outcome r = Exited ErrorTWRP) \/
   (exists e,
      calls = [ entry (adb_Shell "twrp wipe cache") None;
                entry (time_Sleep 1000) tt;
                entry (adb_Shell "twrp wipe dalvik") None;
                entry (time_Sleep 1000) tt;
                entry (adb_Shell "twrp wipe data") (Some e) ] /\
      outcome r = Exited ErrorTWRP) \/
   (calls = [ entry (adb_Shell "twrp wipe cache") None;
              entry (time_Sleep 1000) tt;
              entry (adb_Shell "twrp wipe dalvik") None;
              entry (time_Sleep 1000) tt;
              entry (adb_Shell "twrp wipe data") None;
              entry (time_Sleep 1000) tt ] /\
    outcome r = Returned tt)) /\
  exists n,
    flat_map wipe_command (log (run handler (main B) w)) = firstn n wipe_commands.
Proof.
  intros r calls. subst calls r. split.
  - apply (wp_run (wipeCachePartitions B)
             (fun l o =>
                (exists e,
                    filter (fun x => negb (is_console x)) l
                    = [ entry (adb_Shell "twrp wipe cache") (Some e) ] /\
                    o = Exited ErrorTWRP) \/
                (exists e,
                    filter (fun x => negb (is_console x)) l
                    = [ entry (adb_Shell "twrp wipe cache") None;
                        entry (time_Sleep 1000) tt;
                        entry (adb_Shell "twrp wipe dalvik") (Some e) ] /\
                    o = Exited ErrorTWRP) \/
                (exists e,
                    filter (fun x => negb (is_console x)) l
                    = [ entry (adb_Shell "twrp wipe cache") None;
                        entry (time_Sleep 1000) tt;
                        entry (adb_Shell "twrp wipe dalvik") None;
                        entry (time_Sleep 1000) tt;
                        entry (adb_Shell "twrp wipe data") (Some e) ] /\
                    o = Exited ErrorTWRP) \/
                (filter (fun x => negb (is_console x)) l
                 = [ entry (adb_Shell "twrp wipe cache") None;
                     entry (time_Sleep 1000) tt;
                     entry (adb_Shell "twrp wipe dalvik") None;
                     entry (time_Sleep 1000) tt;
                     entry (adb_Shell "twrp wipe data") None;
                     entry (time_Sleep 1000) tt ] /\
                 o = Returned tt))).
    block. all: units.
    all: first [ left; eexists; split; reflexivity
               | right; left; eexists; split; reflexivity
               | right; right; left; eexists; split; reflexivity
               | right; right; right; split; reflexivity ].
  - set (N := fun l : list Entry => flat_map wipe_command l = []).
    set (Q := fun (l : list Entry) (o : Outcome unit) =>
                exists n, flat_map wipe_command l = firstn n wipe_commands).
    assert (Happ : forall l l' o, N l -> Q l' o -> Q (l ++ l')%list o).
    { intros l l' o H [n H']. exists n. now rewrite wipe_command_app. }
    assert (Hq : forall l o, N l -> Q l o).
    { intros l o H. exists 0%nat. exact H. }
    apply (wp_run (main B) Q). unfold main.
    repeat (apply (wp_after N);
            [ block; reflexivity
            | intros; apply Hq; assumption
            | intros; apply Hq; assumption
            | exact Happ
            | intro ]).
    apply wp_bind. unfold wipeCachePartitions. exec.
    all: try (unfold Q; prefix_of_three).
    assert (Hend : always N (finalReboot B)) by (block; reflexivity).
    revert Hend. apply wp_mono. intros l o H.
    exists 3%nat. cbn. rewrite H. reflexivity.
Qed.

(** ** The steps before the device is touched *)

(** X3.  The first thing a run of [main] does is parse the flags, and what
    follows is decided there.  A rejected command line ends the process
    with status 2 and a request for help with status 0, in both cases with
    nothing printed or asked by [main].  With the version flag set, [main]
    prints the version line, with the version, the platform and the
    architecture as its arguments, and exits with Success; nothing but the
    console follows, so not even the executable's path is asked for.
    Otherwise the next thing the run does is ask for that path. *)
Theorem version_flag_exits_first (B : Build) (W : Type)
        (handler : forall T, Event T -> W -> T * W) (w : W) :
  let r := run handler (main B) w in
  exists parsed rest,
    log r = entry flag_Parse parsed :: rest /\
    match parsed with
    | Rejected => rest = [] /\ outcome r = Exited 2
    | HelpRequested => rest = [] /\ outcome r = Exited 0
    | Accepted true =>
        outcome r = Exited Success /\
        exists tail,
          rest = entry (fmt_Printf ("Nethunter installer version %s %s/%s" ++ nl)
                                   [ Version B; GOOS B; GOARCH B ]) tt :: tail /\
          forallb is_console tail = true
    | Accepted false => exists x tail, rest = entry os_Executable x :: tail
    end.
Proof.
  intro r. subst r.
  apply (wp_run (main B)
           (fun l o =>
              exists parsed rest,
                l = entry flag_Parse parsed :: rest /\
                match parsed with
                | Rejected => rest = [] /\ o = Exited 2
                | HelpRequested => rest = [] /\ o = Exited 0
                | Accepted true =>
                    o = Exited Success /\
                    exists tail,
                      rest = entry (fmt_Printf ("Nethunter installer version %s %s/%s" ++ nl)
                                               [ Version B; GOOS B; GOARCH B ]) tt :: tail /\
                      forallb is_console tail = true
                | Accepted false => exists x tail, rest = entry os_Executable x :: tail
                end)).
  unfold main. apply wp_bind. unfold versionOrContinue. exec.
  all: try solve [ shape ].
  apply wp_bind. unfold enterInstallerDir. exec.
  all: try solve [ shape ].
  all: generalize (wp_true (install B)); apply wp_mono; intros l o _; shape.
Qed.

(** X4.  Entering the installer directory: a failure to find the
    executable panics; otherwise PATH is set to the executable's directory,
    a colon and the PATH read just before, and a failure to set it exits
    with ErrorPrereqs before any change of directory; otherwise the working
    directory is changed to that same directory, and a failure of that
    change only prints a warning: the step returns either way. *)
Theorem enterInstallerDir_behaviour (B : Build) (W : Type)
        (handler : forall T, Event T -> W -> T * W) (w : W) :
  let r := run handler (enterInstallerDir B) w in
  exists myPath err rest,
    log r = entry os_Executable (myPath, err) :: rest /\
    match err with
    | Some e => rest = [] /\ outcome r = Panicked e
    | None =>
        exists old serr rest',
          rest = entry (os_Getenv "PATH") old
                 :: entry (os_Setenv "PATH" (path_Dir B myPath ++ ":" ++ old)) serr
                 :: rest' /\
          match serr with
          | Some _ => outcome r = Exited ErrorPrereqs /\ forallb is_console rest' = true
          | None =>
              exists cerr,
                outcome r = Returned tt /\
                rest' = entry (os_Chdir (path_Dir B myPath)) cerr
                        :: match cerr with
                           | Some _ =>
                               [ entry (fmt_Printf ("Warning: failed to change working directory" ++ nl) []) tt ]
                           | None => []
                           end
          end
    end.
Proof.
  intro r. subst r.
  apply (wp_run (enterInstallerDir B)
           (fun l o =>
              exists myPath err rest,
                l = entry os_Executable (myPath, err) :: rest /\
                match err with
                | Some e => rest = [] /\ o = Panicked e
                | None =>
                    exists old serr rest',
                      rest = entry (os_Getenv "PATH") old
                             :: entry (os_Setenv "PATH" (path_Dir B myPath ++ ":" ++ old)) serr
                             :: rest' /\
                      match serr with
                      | Some _ => o = Exited ErrorPrereqs /\ forallb is_console rest' = true
                      | None =>
                          exists cerr,
                            o = Returned tt /\
                            rest' = entry (os_Chdir (path_Dir B myPath)) cerr
                                    :: match cerr with
                                       | Some _ =>
                                           [ entry (fmt_Printf ("Warning: failed to change working directory" ++ nl) []) tt ]
                                       | None => []
                                       end
                      end
                end)).
  block. all: units.
  all: eexists _, _, _; split; [ reflexivity | ]; cbv beta iota.
  1: split; reflexivity.
  1, 2: eexists _, _, _; split; [ reflexivity | ]; cbv beta iota; split; reflexivity.
  - eexists _, _, _; split; [ reflexivity | ]; cbv beta iota.
    exists (Some g). split; reflexivity.
  - eexists _, _, _; split; [ reflexivity | ]; cbv beta iota.
    exists None. split; reflexivity.
Qed.

(** Stepping over a step whose log satisfies [N] and whose exit codes
    satisfy [X]. *)
Lemma wp_after_exits (N : list Entry -> Prop) (X : Z -> Prop) {A R : Type}
      (p : Prog A) (k : A -> Prog R) (Q : list Entry -> Outcome R -> Prop) :
  wp p (fun l o => N l /\ match o with Exited c => X c | _ => True end) ->
  (forall l c, N l -> X c -> Q l (Exited c)) ->
  (forall l e, N l -> Q l (Panicked e)) ->
  (forall l l' o, N l -> Q l' o -> Q (l ++ l')%list o) ->
  (forall a, wp (k a) Q) ->
  wp (bind p k) Q.
Proof.
  intros Hp Hexit Hpanic Happ Hk. apply wp_bind. revert Hp. apply wp_mono.
  intros l o [Hl Ho]. destruct o as [a | c | e]; auto.
  generalize (Hk a). apply wp_mono. intros l' o'. auto.
Qed.

Lemma installConsented_never_aborts (B : Build) :
  ends_with (fun _ c => c <> SuccessUserAbort) (installConsented B).
Proof.
  unfold installConsented, installUnlocked.
  repeat (apply ends_with_bind;
          [ auto | block; first [ exact I | vm_compute; discriminate ] | intro ]).
  unfold ends_with, finalReboot. exec. all: vm_compute; discriminate.
Qed.

(** X5.  The consent prompt: the answer is compared with "yes" as it was
    read; a read error exits with ErrorUserInput, any other line exits with
    SuccessUserAbort, and only the exact line "yes" lets the run go on.  The
    step asks nothing of the device or the network. *)
Theorem awaitUserConsent_gate (B : Build) (W : Type)
        (handler : forall T, Event T -> W -> T * W) (w : W) :
  let r := run handler (awaitUserConsent B) w in
  exists line err rest,
    log r = entry (fmt_Printf (MsgWelcome B ++ nl) []) tt
            :: entry (fmt_Print "Are you ready to install Nethunter? (yes/no): ") tt
            :: entry reader_ReadLine (line, err) :: rest /\
    existsb is_device_or_network (log r) = false /\
    outcome r = match err with
                | Some _ => Exited ErrorUserInput
                | None => if String.eqb "yes" line
                          then Returned tt
                          else Exited SuccessUserAbort
                end.
Proof.
  intro r. subst r.
  apply (wp_run (awaitUserConsent B)
           (fun l o =>
              exists line err rest,
                l = entry (fmt_Printf (MsgWelcome B ++ nl) []) tt
                    :: entry (fmt_Print "Are you ready to install Nethunter? (yes/no): ") tt
                    :: entry reader_ReadLine (line, err) :: rest /\
                existsb is_device_or_network l = false /\
                o = match err with
                    | Some _ => Exited ErrorUserInput
                    | None => if String.eqb "yes" line
                              then Returned tt
                              else Exited SuccessUserAbort
                    end)).
  block. all: units.
  all: eexists _, _, _; split; [ reflexivity | ]; split; [ reflexivity | ].
  all: cbv beta iota;
    repeat match goal with H : String.eqb _ _ = _ |- _ => rewrite H end;
    reflexivity.
Qed.

(** X6.  A run of [main] that exits with SuccessUserAbort has asked nothing
    of the device, the network or the working directory's files, and the
    operator's answer to the consent prompt was read without error and was
    not "yes". *)
Theorem abort_touches_nothing (B : Build) (W : Type)
        (handler : forall T, Event T -> W -> T * W) (w : W) :
  outcome (run handler (main B) w) = Exited SuccessUserAbort ->
  existsb is_device_or_network (log (run handler (main B) w)) = false /\
  exists line,
    In (entry reader_ReadLine (line, None)) (log (run handler (main B) w)) /\
    String.eqb "yes" line = false.
Proof.
  apply (wp_run (main B)
           (fun l o =>
              o = Exited SuccessUserAbort ->
              existsb is_device_or_network l = false /\
              exists line,
                In (entry reader_ReadLine (line, None)) l /\
                String.eqb "yes" line = false)).
  unfold main. apply wp_bind. unfold versionOrContinue. exec.
  all: try wrong_code.
  apply wp_bind. unfold enterInstallerDir. exec.
  all: try wrong_code.
  all: apply wp_bind; unfold awaitUserConsent; exec.
  all: try wrong_code.
  all: try (split; [ reflexivity | eexists; split; [ cbn; auto 20 | assumption ] ]).
  all: generalize (installConsented_never_aborts B); apply wp_mono;
    intros l [ ? | c | ? ] H Heq;
    [ destruct H | inversion Heq; subst c; exfalso; apply H; reflexivity | destruct H ].
Qed.

Lemma abort_touches_nothing_witness :
  outcome (run scripted (main linux) consent_refused) = Exited SuccessUserAbort /\
  existsb is_device_or_network (log (run scripted (main linux) consent_refused)) = false /\
  exists line,
    In (entry reader_ReadLine (line, None)) (log (run scripted (main linux) consent_refused)) /\
    String.eqb "yes" line = false.
Proof.
  split.
  - reflexivity.
  - apply (@abort_touches_nothing linux World scripted consent_refused). reflexivity.
Defined.

(** X7.  Verifying the tools: adb is asked for its status first; an error
    exits with ErrorPrereqs without asking fastboot; otherwise fastboot is
    asked, and an error exits with ErrorPrereqs.  The statuses themselves
    are not looked at: with no error the step returns whatever the two
    statuses are, a missing device included. *)
Theorem verifyToolchain_checks_errors_only (B : Build) (W : Type)
        (handler : forall T, Event T -> W -> T * W) (w : W) :
  let r := run handler (verifyToolchain B) w in
  exists a aerr rest,
    log r = entry (fmt_Printf ("" ++ nl) []) tt
            :: entry (fmt_Printf ("Verifying installer tools..." ++ nl) []) tt
            :: entry adb_Status (a, aerr) :: rest /\
    match aerr with
    | Some _ =>
        outcome r = Exited ErrorPrereqs /\ existsb is_device_or_network rest = false
    | None =>
        exists f ferr rest',
          rest = entry fastboot_Status (f, ferr) :: rest' /\
          existsb is_device_or_network rest' = false /\
          outcome r = match ferr with
                      | Some _ => Exited ErrorPrereqs
                      | None => Returned tt
                      end
    end.
Proof.
  intro r. subst r.
  apply (wp_run (verifyToolchain B)
           (fun l o =>
              exists a aerr rest,
                l = entry (fmt_Printf ("" ++ nl) []) tt
                    :: entry (fmt_Printf ("Verifying installer tools..." ++ nl) []) tt
                    :: entry adb_Status (a, aerr) :: rest /\
                match aerr with
                | Some _ =>
                    o = Exited ErrorPrereqs /\ existsb is_device_or_network rest = false
                | None =>
                    exists f ferr rest',
                      rest = entry fastboot_Status (f, ferr) :: rest' /\
                      existsb is_device_or_network rest' = false /\
                      o = match ferr with
                          | Some _ => Exited ErrorPrereqs
                          | None => Returned tt
                          end
                end)).
  block. all: shape.
Qed.

(** X8.  [verifyFastbootStatusOrAbort] probes fastboot once and asks
    nothing else of the device: a failed probe or NoDeviceFound exits with
    ErrorFastboot, NoUsbPerms exits with ErrorUsbPerms, and every other
    status lets the run go on. *)
Theorem verifyFastbootStatusOrAbort_routes (B : Build) (W : Type)
        (handler : forall T, Event T -> W -> T * W) (w : W) :
  let r := run handler (verifyFastbootStatusOrAbort B) w in
  exists s err rest,
    log r = entry fastboot_Status (s, err) :: rest /\
    existsb is_device_or_network rest = false /\
    outcome r = match err, s with
                | Some _, _ | None, NoDeviceFound => Exited ErrorFastboot
                | None, NoUsbPerms => Exited ErrorUsbPerms
                | None, _ => Returned tt
                end.
Proof.
  intro r. subst r.
  apply (wp_run (verifyFastbootStatusOrAbort B)
           (fun l o =>
              exists s err rest,
                l = entry fastboot_Status (s, err) :: rest /\
                existsb is_device_or_network rest = false /\
                o = match err, s with
                    | Some _, _ | None, NoDeviceFound => Exited ErrorFastboot
                    | None, NoUsbPerms => Exited ErrorUsbPerms
                    | None, _ => Returned tt
                    end)).
  block. all: shape.
Qed.

(** ** The fetch steps that look at their own file *)

(** X9.  The update package and the factory image.  Each step that returns
    has made one request and one [os.Stat], on the file name of that
    request.  If the answer is anything but a not-exist error -- the file is
    there, or [os.Stat] failed for another reason -- nothing is downloaded
    and the path handed on is that file name.  If it is a not-exist error,
    one download is made, with the progress handler titled by the file
    name, and the path handed on is the one the download returned.  A step
    that does not return exits with ErrorRemote. *)
Theorem fetch_skips_present_file (B : Build) (product : string) (W : Type)
        (handler : forall T, Event T -> W -> T * W) (w : W) :
  let n := run handler (fetchNethunter B product) w in
  let f := run handler (fetchFactory B) w in
  match outcome n with
  | Returned path =>
      exists req serr,
        if os_IsNotExist serr
        then log n = [ entry (fmt_Printf ("Downloading the latest release for your device (%q)..." ++ nl)
                                         [ product ]) tt;
                       entry remote_RequestNethunter (Ok req);
                       entry (os_Stat (Filename req)) serr;
                       entry (req_Download (set_ProgressHandler (Filename req) req))
                             (path, None) ]
        else log n = [ entry (fmt_Printf ("Downloading the latest release for your device (%q)..." ++ nl)
                                         [ product ]) tt;
                       entry remote_RequestNethunter (Ok req);
                       entry (os_Stat (Filename req)) serr ] /\
             path = Filename req
  | Exited c => c = ErrorRemote
  | Panicked _ => False
  end /\
  match outcome f with
  | Returned path =>
      exists req serr,
        if os_IsNotExist serr
        then log f = [ entry (fmt_Printf ("Downloading OnePlus 5 factory for your device..." ++ nl) []) tt;
                       entry remote_RequestFactory (Ok req);
                       entry (os_Stat (Filename req)) serr;
                       entry (req_Download (set_ProgressHandler (Filename req) req))
                             (path, None) ]
        else log f = [ entry (fmt_Printf ("Downloading OnePlus 5 factory for your device..." ++ nl) []) tt;
                       entry remote_RequestFactory (Ok req);
                       entry (os_Stat (Filename req)) serr ] /\
             path = Filename req
  | Exited c => c = ErrorRemote
  | Panicked _ => False
  end.
Proof.
  intros n f. subst n f. split.
  - apply (wp_run (fetchNethunter B product)
             (fun l o =>
                match o with
                | Returned path =>
                    exists req serr,
                      if os_IsNotExist serr
                      then l = [ entry (fmt_Printf ("Downloading the latest release for your device (%q)..." ++ nl)
                                                   [ product ]) tt;
                                 entry remote_RequestNethunter (Ok req);
                                 entry (os_Stat (Filename req)) serr;
                                 entry (req_Download (set_ProgressHandler (Filename req) req))
                                       (path, None) ]
                      else l = [ entry (fmt_Printf ("Downloading the latest release for your device (%q)..." ++ nl)
                                                   [ product ]) tt;
                                 entry remote_RequestNethunter (Ok req);
                                 entry (os_Stat (Filename req)) serr ] /\
                           path = Filename req
                | Exited c => c = ErrorRemote
                | Panicked _ => False
                end)).
    block. all: units. all: try reflexivity.
    all: stat_answer ltac:(cbn; first [ reflexivity | split; reflexivity ]).
  - apply (wp_run (fetchFactory B)
             (fun l o =>
                match o with
                | Returned path =>
                    exists req serr,
                      if os_IsNotExist serr
                      then l = [ entry (fmt_Printf ("Downloading OnePlus 5 factory for your device..." ++ nl) []) tt;
                                 entry remote_RequestFactory (Ok req);
                                 entry (os_Stat (Filename req)) serr;
                                 entry (req_Download (set_ProgressHandler (Filename req) req))
                                       (path, None) ]
                      else l = [ entry (fmt_Printf ("Downloading OnePlus 5 factory for your device..." ++ nl) []) tt;
                                 entry remote_RequestFactory (Ok req);
                                 entry (os_Stat (Filename req)) serr ] /\
                           path = Filename req
                | Exited c => c = ErrorRemote
                | Panicked _ => False
                end)).
    block. all: units. all: try reflexivity.
    all: stat_answer ltac:(cbn; first [ reflexivity | split; reflexivity ]).
Qed.

(** X10.  The TWRP image.  The request is made for the URL of the product
    string, and the request the step works with is the one the download
    library returned with the header Referer, set to that same URL, added
    after its other headers.  The [os.Stat] is on that request's file name;
    a download, made only on a not-exist error, is of the request carrying
    the Referer.  A step that does not return exits with ErrorRemote. *)
Theorem fetchTWRP_download_carries_referer (B : Build) (product : string) (W : Type)
        (handler : forall T, Event T -> W -> T * W) (w : W) :
  let r := run handler (fetchTWRP B product) w in
  match outcome r with
  | Returned path =>
      exists req serr,
        if os_IsNotExist serr
        then log r
             = [ entry (fmt_Printf ("Downloading TWRP for your device..." ++ nl) []) tt;
                 entry (net_NewDownloadRequest (genTWRPDeviceUrl product)) (Ok req);
                 entry (os_Stat (Filename req)) serr;
                 entry (req_Download
                          {| Filename := Filename req;
                             Header := Header req ++ [ ("Referer", genTWRPDeviceUrl product) ];
                             ProgressHandler := Some (Filename req) |})
                       (path, None) ]
        else log r
             = [ entry (fmt_Printf ("Downloading TWRP for your device..." ++ nl) []) tt;
                 entry (net_NewDownloadRequest (genTWRPDeviceUrl product)) (Ok req);
                 entry (os_Stat (Filename req)) serr ] /\
             path = Filename req
  | Exited c => c = ErrorRemote
  | Panicked _ => False
  end.
Proof.
  intro r. subst r.
  apply (wp_run (fetchTWRP B product)
           (fun l o =>
              match o with
              | Returned path =>
                  exists req serr,
                    if os_IsNotExist serr
                    then l = [ entry (fmt_Printf ("Downloading TWRP for your device..." ++ nl) []) tt;
                               entry (net_NewDownloadRequest (genTWRPDeviceUrl product)) (Ok req);
                               entry (os_Stat (Filename req)) serr;
                               entry (req_Download
                                        {| Filename := Filename req;
                                           Header := Header req ++ [ ("Referer", genTWRPDeviceUrl product) ];
                                           ProgressHandler := Some (Filename req) |})
                                     (path, None) ]
                    else l = [ entry (fmt_Printf ("Downloading TWRP for your device..." ++ nl) []) tt;
                               entry (net_NewDownloadRequest (genTWRPDeviceUrl product)) (Ok req);
                               entry (os_Stat (Filename req)) serr ] /\
                         path = Filename req
              | Exited c => c = ErrorRemote
              | Panicked _ => False
              end)).
  block. all: units. all: try reflexivity.
  all: stat_answer ltac:(cbn; first [ reflexivity | split; reflexivity ]).
Qed.

(** ** The TWRP URL *)

Lemma string_length_app (a b : string) :
  String.length (a ++ b) = (String.length a + String.length b)%nat.
Proof. induction a as [ | c a IH ]; cbn; [ reflexivity | now rewrite IH ]. Qed.

Lemma string_app_same_length (a b x y : string) :
  String.length a = String.length b -> (a ++ x = b ++ y)%string -> a = b.
Proof.
  revert b. induction a as [ | c a IH ]; intros [ | d b ] Hlen H; cbn in *;
    try discriminate; [ reflexivity | ].
  injection H as Hc Ht. injection Hlen as Hlen. subst d. f_equal. now apply IH.
Qed.

(** X11.  Two devices have the same TWRP URL only if they are the same
    device: the URL determines the device name. *)
Theorem genTWRPDeviceUrl_injective (d1 d2 : string) :
  String.eqb (genTWRPDeviceUrl d1) (genTWRPDeviceUrl d2) = String.eqb d1 d2.
Proof.
  destruct (String.eqb_spec d1 d2) as [ Heq | Hneq ].
  - subst d2. apply String.eqb_refl.
  - apply String.eqb_neq. intro H. apply Hneq.
    unfold genTWRPDeviceUrl, TWRPEndpoint, TWRPVersionPrefix, TWRPExtension in H.
    cbn in H. repeat (injection H as H).
    assert (Hlen : String.length d1 = String.length d2).
    { apply (f_equal String.length) in H.
      rewrite !string_length_app in H. cbn in H.
      rewrite !string_length_app in H. cbn in H. lia. }
    exact (string_app_same_length _ _ _ _ Hlen H).
Qed.

(** ** Flashing *)

(** X12.  Flashing the factory image talks to the device in one of four
    ways: the boot of the OxygenOS recovery image fails (ErrorTWRP); the
    image boots and the operator's line cannot be read (ErrorUserInput),
    nothing being sideloaded; the image boots and the sideload of the
    factory image fails (ErrorTWRP); or both succeed and the step returns.
    The sideload is never sent before the boot has succeeded. *)
Theorem flashFactoryViaRecoveryA_sequence (B : Build) (a : Artifacts) (W : Type)
        (handler : forall T, Event T -> W -> T * W) (w : W) :
  let r := run handler (flashFactoryViaRecoveryA B a) w in
  let calls := filter (fun x => negb (is_console x)) (log r) in
  (exists e,
      calls = [ entry (fastboot_Boot (oxygenrecovery a)) (Some e) ] /\
      outcome r = Exited ErrorTWRP) \/
  (calls = [ entry (fastboot_Boot (oxygenrecovery a)) None ] /\
   outcome r = Exited ErrorUserInput) \/
  (exists e,
      calls = [ entry (fastboot_Boot (oxygenrecovery a)) None;
                entry (adb_Sideload (factory a)) (Some e) ] /\
      outcome r = Exited ErrorTWRP) \/
  (calls = [ entry (fastboot_Boot (oxygenrecovery a)) None;
             entry (adb_Sideload (factory a)) None ] /\
   outcome r = Returned tt).
Proof.
  intros r calls. subst calls r.
  apply (wp_run (flashFactoryViaRecoveryA B a)
           (fun l o =>
              (exists e,
                  filter (fun x => negb (is_console x)) l
                  = [ entry (fastboot_Boot (oxygenrecovery a)) (Some e) ] /\
                  o = Exited ErrorTWRP) \/
              (filter (fun x => negb (is_console x)) l
               = [ entry (fastboot_Boot (oxygenrecovery a)) None ] /\
               o = Exited ErrorUserInput) \/
              (exists e,
                  filter (fun x => negb (is_console x)) l
                  = [ entry (fastboot_Boot (oxygenrecovery a)) None;
                      entry (adb_Sideload (factory a)) (Some e) ] /\
                  o = Exited ErrorTWRP) \/
              (filter (fun x => negb (is_console x)) l
               = [ entry (fastboot_Boot (oxygenrecovery a)) None;
                   entry (adb_Sideload (factory a)) None ] /\
               o = Returned tt))).
  block. all: units.
  all: first [ left; eexists; split; reflexivity
             | right; left; split; reflexivity
             | right; right; left; eexists; split; reflexivity
             | right; right; right; split; reflexivity ].
Qed.

(** X13.  Installing the update package talks to the device in one of five
    ways, each stopping at the first failure: the operator's line cannot be
    read (ErrorUserInput, nothing sent); the boot of the TWRP image fails
    (ErrorTWRP); after the boot and a 10000 ms sleep the push of the update
    package to /sdcard fails (ErrorAdb); the install command fails
    (ErrorTWRP); or all succeed, a 2000 ms sleep follows, and the step
    returns.  The install command names /sdcard/ followed by the local path
    of the package as it was pushed. *)
Theorem flashUpdateViaRecoveryB_sequence (B : Build) (a : Artifacts) (W : Type)
        (handler : forall T, Event T -> W -> T * W) (w : W) :
  let r := run handler (flashUpdateViaRecoveryB B a) w in
  let calls := filter (fun x => negb (is_console x)) (log r) in
  (calls = [] /\ outcome r = Exited ErrorUserInput) \/
  (exists e,
      calls = [ entry (fastboot_Boot (twrp a)) (Some e) ] /\
      outcome r = Exited ErrorTWRP) \/
  (exists e,
      calls = [ entry (fastboot_Boot (twrp a)) None;
                entry (time_Sleep 10000) tt;
                entry (adb_PushFg (zip a) "/sdcard") (Some e) ] /\
      outcome r = Exited ErrorAdb) \/
  (exists e,
      calls = [ entry (fastboot_Boot (twrp a)) None;
                entry (time_Sleep 10000) tt;
                entry (adb_PushFg (zip a) "/sdcard") None;
                entry (adb_Shell ("twrp install /sdcard/" ++ zip a)) (Some e) ] /\
      outcome r = Exited ErrorTWRP) \/
  (calls = [ entry (fastboot_Boot (twrp a)) None;
             entry (time_Sleep 10000) tt;
             entry (adb_PushFg (zip a) "/sdcard") None;
             entry (adb_Shell ("twrp install /sdcard/" ++ zip a)) None;
             entry (time_Sleep 2000) tt ] /\
   outcome r = Returned tt).
Proof.
  intros r calls. subst calls r.
  apply (wp_run (flashUpdateViaRecoveryB B a)
           (fun l o =>
              (filter (fun x => negb (is_console x)) l = [] /\
               o = Exited ErrorUserInput) \/
              (exists e,
                  filter (fun x => negb (is_console x)) l
                  = [ entry (fastboot_Boot (twrp a)) (Some e) ] /\
                  o = Exited ErrorTWRP) \/
              (exists e,
                  filter (fun x => negb (is_console x)) l
                  = [ entry (fastboot_Boot (twrp a)) None;
                      entry (time_Sleep 10000) tt;
                      entry (adb_PushFg (zip a) "/sdcard") (Some e) ] /\
                  o = Exited ErrorAdb) \/
              (exists e,
                  filter (fun x => negb (is_console x)) l
                  = [ entry (fastboot_Boot (twrp a)) None;
                      entry (time_Sleep 10000) tt;
                      entry (adb_PushFg (zip a) "/sdcard") None;
                      entry (adb_Shell ("twrp install /sdcard/" ++ zip a)) (Some e) ] /\
                  o = Exited ErrorTWRP) \/
              (filter (fun x => negb (is_console x)) l
               = [ entry (fastboot_Boot (twrp a)) None;
                   entry (time_Sleep 10000) tt;
                   entry (adb_PushFg (zip a) "/sdcard") None;
                   entry (adb_Shell ("twrp install /sdcard/" ++ zip a)) None;
                   entry (time_Sleep 2000) tt ] /\
               o = Returned tt))).
  block. all: units.
  all: first [ left; split; reflexivity
             | right; left; eexists; split; reflexivity
             | right; right; left; eexists; split; reflexivity
             | right; right; right; left; eexists; split; reflexivity
             | right; right; right; right; split; reflexivity ].
Qed.

(** ** Bounds and invariants of a whole run *)

Lemma sleep_total_app (l l' : list Entry) :
  sleep_total (l ++ l') = (sleep_total l + sleep_total l')%Z.
Proof.
  unfold sleep_total. induction l as [ | x l IH ]; cbn; [ reflexivity | ].
  rewrite IH. lia.
Qed.

Lemma sleep_bind (b1 b2 b : Z) {A R : Type} (p : Prog A) (k : A -> Prog R) :
  b = (b1 + b2)%Z -> (0 <= b2)%Z ->
  always (fun l => (sleep_total l <= b1)%Z) p ->
  (forall a, always (fun l => (sleep_total l <= b2)%Z) (k a)) ->
  always (fun l => (sleep_total l <= b)%Z) (bind p k).
Proof.
  intros Hb H2 Hp Hk. subst b. apply wp_bind. revert Hp. apply wp_mono.
  intros l o Hl. destruct o as [a | c | e]; try lia.
  generalize (Hk a). apply wp_mono. intros l' _ Hl'.
  rewrite sleep_total_app. lia.
Qed.

(** X14.  No run of [main] sleeps for more than 22000 ms in all: 7000 after
    the reboot into the bootloader, 10000 and 2000 around the installation
    of the update package, and 1000 after each of the three wipes. *)
Theorem sleep_budget (B : Build) (W : Type)
        (handler : forall T, Event T -> W -> T * W) (w : W) :
  (sleep_total (log (run handler (main B) w)) <= 22000)%Z.
Proof.
  apply (wp_run (main B) (fun l _ => (sleep_total l <= 22000)%Z)).
  change (always (fun l => (sleep_total l <= 22000)%Z) (main B)).
  unfold main.
  repeat (eapply (@sleep_bind 0);
          [ reflexivity | lia | solve [ block; cbn; lia ] | intro ]).
  eapply (@sleep_bind 7000 15000);
    [ reflexivity | lia | solve [ block; cbn; lia ] | intro ].
  repeat (eapply (@sleep_bind 0);
          [ reflexivity | lia | solve [ block; cbn; lia ] | intro ]).
  eapply (@sleep_bind 12000 3000);
    [ reflexivity | lia | solve [ block; cbn; lia ] | intro ].
  eapply (@sleep_bind 3000 0);
    [ reflexivity | lia | solve [ block; cbn; lia ] | intro ].
  block; cbn; lia.
Qed.

(** The bound is reached by an installation that has to reboot the device
    into the bootloader first. *)
Lemma sleep_budget_is_reached :
  sleep_total (log (run scripted (main linux) full_install)) = 22000%Z /\
  outcome (run scripted (main linux) full_install) = Exited Success.
Proof. split; reflexivity. Qed.

Lemma not_ReadLine_of_Printf (x : Entry) : is_Printf x = true -> is_ReadLine x = false.
Proof. destruct x as [T e r]. destruct e; cbn; intro H; try discriminate; reflexivity. Qed.

Lemma announced_app (l l' : list Entry) :
  announced l' = true -> announced (l ++ l') = true.
Proof.
  unfold announced. rewrite rev_app_distr.
  destruct (rev l') as [ | x [ | y [ | z t ] ] ]; cbn; try discriminate.
  - intro H. destruct (rev l) as [ | y [ | z t ] ]; cbn; auto.
    now rewrite (not_ReadLine_of_Printf x H).
  - intro H. destruct (rev l) as [ | z t ]; cbn; auto.
    now rewrite (not_ReadLine_of_Printf x H).
  - auto.
Qed.

Lemma announced_cons (x : Entry) (l : list Entry) :
  announced l = true -> announced (x :: l) = true.
Proof. apply (announced_app [x]). Qed.

Lemma install_announced (B : Build) :
  ends_with (fun l c => c = Success \/ announced l = true) (install B).
Proof.
  unfold install, installUnlocked.
  repeat (apply ends_with_bind;
          [ intros l l' c [ H | H ]; [ now left | right; now apply announced_app ]
          | block; first [ exact I | right; reflexivity ]
          | intro ]).
  unfold ends_with, finalReboot. exec.
  all: first [ right; reflexivity | left; reflexivity ].
Qed.

(** X15.  Where the flag package accepts the command line, no run of
    [main] exits with a code other than Success in silence: the interaction
    right before the exit, the Windows pause set aside, is a printed line;
    and the panic on a failed [os.Executable] is the one end of such a run
    that prints nothing through [Printf].  Where the flag package ends the
    process itself, [main] has printed nothing. *)
Theorem exits_are_announced (B : Build) (W : Type)
        (handler : forall T, Event T -> W -> T * W) (w : W) :
  let r := run handler (main B) w in
  exists parsed rest,
    log r = entry flag_Parse parsed :: rest /\
    match parsed with
    | Accepted _ =>
        match outcome r with
        | Exited c => c = Success \/ announced (log r) = true
        | Panicked _ => existsb is_Printf (log r) = false
        | Returned _ => False
        end
    | HelpRequested | Rejected => rest = []
    end.
Proof.
  intro r. subst r.
  apply (wp_run (main B)
           (fun l o =>
              exists parsed rest,
                l = entry flag_Parse parsed :: rest /\
                match parsed with
                | Accepted _ =>
                    match o with
                    | Exited c => c = Success \/ announced l = true
                    | Panicked _ => existsb is_Printf l = false
                    | Returned _ => False
                    end
                | HelpRequested | Rejected => rest = []
                end)).
  unfold main. apply wp_bind. unfold versionOrContinue. exec.
  all: try (eexists _, _; split; [ reflexivity | ]; cbv beta iota;
            first [ reflexivity | right; reflexivity ]).
  apply wp_bind. unfold enterInstallerDir. exec.
  all: try (eexists _, _; split; [ reflexivity | ]; cbv beta iota;
            first [ reflexivity | right; reflexivity ]).
  all: generalize (install_announced B); apply wp_mono;
    intros l [ ? | c | ? ] H; [ destruct H | | destruct H ];
    eexists _, _; (split; [ reflexivity | ]); cbv beta iota;
    destruct H as [ H | H ]; [ now left | right ];
    repeat apply announced_cons; exact H.
Qed.

(** X16.  A run of [main] exits with status 0 only in three ways: the flag
    package ended the process on a request for help, before anything else
    was done; the version flag was set; or the three wipe commands were all
    sent, in order, and the final reboot was requested and accepted. *)
Theorem success_means_installed (B : Build) (W : Type)
        (handler : forall T, Event T -> W -> T * W) (w : W) :
  let r := run handler (main B) w in
  outcome r <> Exited Success \/
  log r = [ entry flag_Parse HelpRequested ] \/
  (exists rest, log r = entry flag_Parse (Accepted true) :: rest) \/
  (flat_map wipe_command (log r) = wipe_commands /\
   existsb is_final_reboot_ok (log r) = true).
Proof.
  intro r. subst r.
  set (N := fun l : list Entry => flat_map wipe_command l = []).
  set (X := fun c : Z => c <> Success).
  set (Q := fun (l : list Entry) (o : Outcome unit) =>
              o <> Exited Success \/
              (flat_map wipe_command l = wipe_commands /\
               existsb is_final_reboot_ok l = true)).
  assert (Happ : forall l l' o, N l -> Q l' o -> Q (l ++ l')%list o).
  { intros l l' o H [ H' | [ H' H'' ] ]; [ now left | right ].
    rewrite wipe_command_app by exact H. split; [ exact H' | ].
    rewrite existsb_app, H''. apply orb_true_r. }
  assert (Hexit : forall l c, N l -> X c -> Q l (Exited c)).
  { intros l c _ Hc. left. intro H. inversion H. contradiction. }
  assert (Hpanic : forall l e, N l -> Q l (Panicked e)).
  { intros l e _. left. discriminate. }
  apply (wp_run (main B)
           (fun l o =>
              o <> Exited Success \/
              l = [ entry flag_Parse HelpRequested ] \/
              (exists rest, l = entry flag_Parse (Accepted true) :: rest) \/
              (flat_map wipe_command l = wipe_commands /\
               existsb is_final_reboot_ok l = true))).
  unfold main. apply wp_bind. unfold versionOrContinue. exec.
  all: try solve [ left; vm_compute; discriminate
                 | right; left; reflexivity
                 | right; right; left; eexists; reflexivity ].
  assert (Hrest : wp (enterInstallerDir B ;; install B) Q).
  { unfold install.
    repeat (apply (wp_after_exits N X);
            [ block; (split; [ reflexivity | first [ exact I | vm_compute; discriminate ] ])
            | exact Hexit | exact Hpanic | exact Happ | intro ]).
    apply wp_bind. unfold wipeCachePartitions. exec.
    all: try (left; vm_compute; discriminate).
    unfold finalReboot. exec.
    all: first [ left; vm_compute; discriminate | right; split; reflexivity ]. }
  revert Hrest. apply wp_mono.
  intros l o [ H | [ H H' ] ]; [ now left | right; right; right ].
  split; [ exact H | exact H' ].
Qed.

Lemma early_no_flash (l l' : list Entry) :
  early l -> existsb is_flash (l ++ l') = existsb is_flash l'.
Proof.
  unfold early. induction l as [ | [T e r] l IH ]; cbn; [ reflexivity | ].
  destruct e; cbn; try discriminate; auto.
Qed.

Lemma early_fetch_calls (l l' : list Entry) :
  early l -> flat_map fetch_call (l ++ l') = flat_map fetch_call l'.
Proof.
  unfold early. induction l as [ | [T e r] l IH ]; cbn; [ reflexivity | ].
  destruct e; cbn; try discriminate; auto.
Qed.

Lemma installUnlocked_gated (B : Build) (product : string) :
  always (fun l =>
            existsb is_flash l = false \/
            (flat_map requested (flat_map fetch_call l)
             = [ Nethunter; TWRP; OxygenRecovery; Factory ] /\
             forallb call_ok (flat_map fetch_call l) = true))
         (installUnlocked B product).
Proof.
  unfold installUnlocked, always. apply wp_bind.
  assert (Hfetch :
            wp (fetchArtifacts B product)
               (fun l o =>
                  existsb is_flash l = false /\
                  match o with
                  | Returned _ =>
                      flat_map requested (flat_map fetch_call l)
                      = [ Nethunter; TWRP; OxygenRecovery; Factory ] /\
                      forallb call_ok (flat_map fetch_call l) = true
                  | _ => True
                  end)).
  { block. all: split; [ reflexivity | first [ exact I | split; reflexivity ] ]. }
  revert Hfetch. apply wp_mono.
  intros l [ a | c | e ] [ Hflash Ho ]; [ | now left | now left ].
  destruct Ho as [ Hreq Hok ].
  assert (Hlater :
            always (fun l' => flat_map fetch_call l' = [])
                   (flashFactoryViaRecoveryA B a ;;
                    flashUpdateViaRecoveryB B a ;;
                    wipeCachePartitions B ;;
                    finalReboot B)).
  { repeat (apply always_bind;
            [ intros l1 l2 H1 H2; now rewrite flat_map_app, H1, H2
            | block; reflexivity | intro ]).
    block; reflexivity. }
  revert Hlater. apply wp_mono. intros l' _ H'. right.
  rewrite flat_map_app, H', app_nil_r. split; assumption.
Qed.

(** X17.  A run of [main] sends a boot, sideload, push or shell command to
    the device only after the lock query answered unlocked and all four
    artifacts were requested, in order, with every request and download
    made succeeding. *)
Theorem flash_is_gated (B : Build) (W : Type)
        (handler : forall T, Event T -> W -> T * W) (w : W) :
  let r := run handler (main B) w in
  existsb is_flash (log r) = false \/
  ((exists e rest, lock_query (log r) = Some ((true, e), rest)) /\
   flat_map requested (flat_map fetch_call (log r))
   = [ Nethunter; TWRP; OxygenRecovery; Factory ] /\
   forallb call_ok (flat_map fetch_call (log r)) = true).
Proof.
  intro r. subst r.
  set (Q := fun (l : list Entry) (o : Outcome unit) =>
              existsb is_flash l = false \/
              ((exists e rest, lock_query l = Some ((true, e), rest)) /\
               flat_map requested (flat_map fetch_call l)
               = [ Nethunter; TWRP; OxygenRecovery; Factory ] /\
               forallb call_ok (flat_map fetch_call l) = true)).
  assert (Happ : forall l l' o, early l -> Q l' o -> Q (l ++ l')%list o).
  { intros l l' o H H'. unfold Q in *.
    rewrite early_no_flash, early_lock_query, early_fetch_calls by exact H.
    exact H'. }
  assert (Hq : forall l o, early l -> Q l o).
  { intros l o H. rewrite <- (app_nil_r l). apply Happ; [ exact H | now left ]. }
  apply (wp_run (main B) Q). unfold main.
  repeat (apply (wp_after early);
          [ block; reflexivity
          | intros; apply Hq; assumption
          | intros; apply Hq; assumption
          | exact Happ
          | intro ]).
  apply wp_bind. unfold ensureBootloaderUnlocked. exec.
  all: units.
  all: lazymatch goal with
       | |- wp (bind (fetchArtifacts _ ?p) _) _ =>
           generalize (installUnlocked_gated B p); apply wp_mono;
           intros l o [ H | [ H H' ] ]; unfold Q; cbn;
           [ left; exact H
           | right; split; [ eexists _, _; reflexivity | split; assumption ] ]
       | |- _ => left; reflexivity
       end.
Qed.

(** ** The recovery image step *)

(** X2.  The OxygenOS recovery step is handed the TWRP path, and that path
    is the argument of its only [os.Stat], whatever file name the recovery
    request carries.  A step that returns has made the request and that one
    [os.Stat]; on a not-exist answer for the TWRP path it downloads the
    recovery image and hands on the path the download returned; on any
    other answer it downloads nothing and hands on the request's file name
    unchecked.  A step that does not return exits with ErrorRemote. *)
Theorem fetchOxygenRecovery_decides_on_twrp (B : Build) (twrp : string) (W : Type)
        (handler : forall T, Event T -> W -> T * W) (w : W) :
  let r := run handler (fetchOxygenRecovery B twrp) w in
  match outcome r with
  | Returned path =>
      exists req serr,
        if os_IsNotExist serr
        then log r
             = [ entry (fmt_Printf ("Downloading OnePlus5 OxygenOS recovery for your device..." ++ nl) []) tt;
                 entry remote_RequestOxygenRecovery (Ok req);
                 entry (os_Stat twrp) serr;
                 entry (req_Download (set_ProgressHandler (Filename req) req))
                       (path, None) ]
        else log r
             = [ entry (fmt_Printf ("Downloading OnePlus5 OxygenOS recovery for your device..." ++ nl) []) tt;
                 entry remote_RequestOxygenRecovery (Ok req);
                 entry (os_Stat twrp) serr ] /\
             path = Filename req
  | Exited c => c = ErrorRemote
  | Panicked _ => False
  end.
Proof.
  intro r. subst r.
  apply (wp_run (fetchOxygenRecovery B twrp)
           (fun l o =>
              match o with
              | Returned path =>
                  exists req serr,
                    if os_IsNotExist serr
                    then l = [ entry (fmt_Printf ("Downloading OnePlus5 OxygenOS recovery for your device..." ++ nl) []) tt;
                               entry remote_RequestOxygenRecovery (Ok req);
                               entry (os_Stat twrp) serr;
                               entry (req_Download (set_ProgressHandler (Filename req) req))
                                     (path, None) ]
                    else l = [ entry (fmt_Printf ("Downloading OnePlus5 OxygenOS recovery for your device..." ++ nl) []) tt;
                               entry remote_RequestOxygenRecovery (Ok req);
                               entry (os_Stat twrp) serr ] /\
                         path = Filename req
              | Exited c => c = ErrorRemote
              | Panicked _ => False
              end)).
  block. all: units. all: try reflexivity.
  all: stat_answer ltac:(cbn; first [ reflexivity | split; reflexivity ]).
Qed.
